(** * Prefetch section decoders (src/prefetch.py)

    A shallow embedding of the [Prefetch] parser class: the byte source is
    an [io.BytesIO] value (buffer and cursor), decoders are computations in
    a state-and-exception monad over it, and the record layouts of the
    [structures.prefetch] module are a parameter ([pfstructs]). *)

From Stdlib Require Import List ZArith NArith Lia Bool.
From Stdlib.Strings Require Import String Ascii Byte.
Import ListNotations.

Set Implicit Arguments.
Local Open Scope Z_scope.

(** ** Python values used by the decoders *)

Module Py.

(** Exceptions the modelled code can raise. [LibError] stands for any
    exception class of a collaborator that the code does not tell apart. *)
Inductive exn : Type :=
| StreamError
| ValueError
| UnicodeDecodeError
| PaddingError
| IndexError
| OSError
| LibError (code : Z).

Inductive result (A : Type) : Type :=
| Ok (a : A)
| Raise (e : exn).
Arguments Ok {A} a.
Arguments Raise {A} e.

Definition rmap {A B} (f : A -> B) (r : result A) : result B :=
  match r with Ok a => Ok (f a) | Raise e => Raise e end.

(** [bytes] objects and [str] objects (sequences of code points). *)
Definition bytes := list byte.
Definition str := list N.

Definition str_of_string (s : string) : str :=
  List.map N_of_ascii (list_ascii_of_string s).

(** The value of [header.Version]: construct's [Enum] yields a string
    label for a mapped number and the bare integer otherwise. *)
Inductive tag : Type :=
| TagStr (label : string)
| TagInt (n : Z).

(** [tag == 'literal'] *)
Definition tag_eq (t : tag) (literal : string) : bool :=
  match t with
  | TagStr s => String.eqb s literal
  | TagInt _ => false
  end.

Section Sequences.
Context {A : Type} (eqb : A -> A -> bool).

Fixpoint startswith (p s : list A) : bool :=
  match p, s with
  | [], _ => true
  | _ :: _, [] => false
  | a :: p', b :: s' => eqb a b && startswith p' s'
  end.

(** Scan of [replace]: [skip] counts the elements of a match that are
    still to be dropped. *)
Fixpoint replace_from (old new : list A) (skip : nat) (s : list A) : list A :=
  match s with
  | [] => []
  | c :: t =>
      match skip with
      | S k => replace_from old new k t
      | O =>
          if startswith old s
          then new ++ replace_from old new (List.length old - 1)%nat t
          else c :: replace_from old new O t
      end
  end.

(** [s.replace(old, new)]: every non-overlapping occurrence, left to
    right; an empty [old] matches before every element and at the end. *)
Definition replace (old new s : list A) : list A :=
  match old with
  | [] => new ++ flat_map (fun c => c :: new) s
  | _ :: _ => replace_from old new O s
  end.

Fixpoint lstrip (c : A) (s : list A) : list A :=
  match s with
  | [] => []
  | x :: t => if eqb x c then lstrip c t else s
  end.

Definition rstrip (c : A) (s : list A) : list A := rev (lstrip c (rev s)).

(** [s.strip(c)] for a one-element [c]. *)
Definition strip (c : A) (s : list A) : list A := rstrip c (lstrip c s).

(** [s.split(sep)] for a one-element separator. *)
Fixpoint split (sep : A) (s : list A) : list (list A) :=
  match s with
  | [] => [[]]
  | c :: t =>
      if eqb c sep then [] :: split sep t
      else match split sep t with
           | [] => [[c]]
           | w :: ws => (c :: w) :: ws
           end
  end.
End Sequences.

(** [l[i]] for [i >= 0]. *)
Definition item {A} (l : list A) (i : nat) : result A :=
  match nth_error l i with
  | Some a => Ok a
  | None => Raise IndexError
  end.

(** *** [hex], [str.upper] *)

Definition hex_digit (d : N) : N :=
  if (d <? 10)%N then (48 + d)%N else (87 + d)%N.

Fixpoint hex_digits (fuel : nat) (n : N) : str :=
  match fuel with
  | O => []
  | S f =>
      if (n <? 16)%N then [hex_digit n]
      else hex_digits f (n / 16)%N ++ [hex_digit (n mod 16)%N]
  end.

(** [hex(n)]: sign, the prefix 0x, then lowercase digits. The fuel is the
    bit length of [|n|], which bounds the number of digits. *)
Definition hex (n : Z) : str :=
  let m := Z.to_N (Z.abs n) in
  (if n <? 0 then [45%N] else []) ++ [48%N; 120%N]
    ++ hex_digits (S (N.to_nat (N.log2 m))) m.

(** [str.upper] on ASCII text (all that [hex] produces); other code
    points are left as they are. *)
Definition upper_char (c : N) : N :=
  if ((97 <=? c) && (c <=? 122))%N then (c - 32)%N else c.

Definition upper (s : str) : str := List.map upper_char s.

(** *** Codecs *)

Definition code_unit (lo hi : byte) : N := (Byte.to_N lo + 256 * Byte.to_N hi)%N.

Definition is_high_surrogate (u : N) : bool := ((55296 <=? u) && (u <=? 56319))%N.
Definition is_low_surrogate (u : N) : bool := ((56320 <=? u) && (u <=? 57343))%N.

(** UTF-16 code units to code points; [big] selects the byte order. *)
Fixpoint utf16_units (big : bool) (bs : bytes) : result str :=
  match bs with
  | [] => Ok []
  | b0 :: t0 =>
      match t0 with
      | [] => Raise UnicodeDecodeError
      | b1 :: rest =>
          let u := if big then code_unit b1 b0 else code_unit b0 b1 in
          if is_high_surrogate u then
            match rest with
            | c0 :: c1 :: rest' =>
                let v := if big then code_unit c1 c0 else code_unit c0 c1 in
                if is_low_surrogate v
                then rmap (cons (65536 + (u - 55296) * 1024 + (v - 56320))%N)
                          (utf16_units big rest')
                else Raise UnicodeDecodeError
            | _ => Raise UnicodeDecodeError
            end
          else if is_low_surrogate u then Raise UnicodeDecodeError
          else rmap (cons u) (utf16_units big rest)
      end
  end.

(** [bs.decode('UTF16')]: a leading byte-order mark selects the order and
    is dropped; without one the order is the host's (little-endian). *)
Definition decode_utf16 (bs : bytes) : result str :=
  match bs with
  | b0 :: b1 :: rest =>
      if (code_unit b0 b1 =? 65279)%N then utf16_units false rest
      else if (code_unit b0 b1 =? 65534)%N then utf16_units true rest
      else utf16_units false bs
  | _ => utf16_units false bs
  end.

Definition is_cont (b : byte) : bool :=
  ((128 <=? Byte.to_N b) && (Byte.to_N b <=? 191))%N.

Definition low6 (b : byte) : N := (Byte.to_N b - 128)%N.

(** [bs.decode('utf8')], strict: shortest forms only, no surrogates,
    nothing above U+10FFFF. *)
Fixpoint decode_utf8 (bs : bytes) : result str :=
  match bs with
  | [] => Ok []
  | b0 :: r0 =>
      let n0 := Byte.to_N b0 in
      if (n0 <? 128)%N then rmap (cons n0) (decode_utf8 r0)
      else if ((194 <=? n0) && (n0 <=? 223))%N then
        match r0 with
        | b1 :: r1 =>
            if is_cont b1
            then rmap (cons ((n0 - 192) * 64 + low6 b1)%N) (decode_utf8 r1)
            else Raise UnicodeDecodeError
        | _ => Raise UnicodeDecodeError
        end
      else if ((224 <=? n0) && (n0 <=? 239))%N then
        match r0 with
        | b1 :: b2 :: r2 =>
            let n1 := Byte.to_N b1 in
            if is_cont b1 && is_cont b2
               && (negb (n0 =? 224)%N || (160 <=? n1)%N)
               && (negb (n0 =? 237)%N || (n1 <=? 159)%N)
            then rmap (cons ((n0 - 224) * 4096 + low6 b1 * 64 + low6 b2)%N)
                      (decode_utf8 r2)
            else Raise UnicodeDecodeError
        | _ => Raise UnicodeDecodeError
        end
      else if ((240 <=? n0) && (n0 <=? 244))%N then
        match r0 with
        | b1 :: b2 :: b3 :: r3 =>
            let n1 := Byte.to_N b1 in
            if is_cont b1 && is_cont b2 && is_cont b3
               && (negb (n0 =? 240)%N || (144 <=? n1)%N)
               && (negb (n0 =? 244)%N || (n1 <=? 143)%N)
            then rmap (cons ((n0 - 240) * 262144 + low6 b1 * 4096
                             + low6 b2 * 64 + low6 b3)%N)
                      (decode_utf8 r3)
            else Raise UnicodeDecodeError
        | _ => Raise UnicodeDecodeError
        end
      else Raise UnicodeDecodeError
  end.

End Py.
Import Py.

(** ** The byte source: [io.BytesIO] *)

Record BytesIO : Type := mkBytesIO {
  getvalue : bytes;
  position : N
}.

(** A computation on the stream: it may raise, and the stream it leaves
    behind is observable either way. *)
Definition IO (A : Type) : Type := BytesIO -> result A * BytesIO.

Definition ret {A} (a : A) : IO A := fun s => (Ok a, s).

Definition raise {A} (e : exn) : IO A := fun s => (Raise e, s).

Definition bind {A B} (m : IO A) (k : A -> IO B) : IO B :=
  fun s =>
    match m s with
    | (Ok a, s') => k a s'
    | (Raise e, s') => (Raise e, s')
    end.

Definition lift {A} (r : result A) : IO A := fun s => (r, s).

Declare Scope io_scope.
Delimit Scope io_scope with io.
Notation "x <- m ;; k" := (bind m (fun x => k))
  (at level 100, m at next level, right associativity) : io_scope.
Notation "m ;;; k" := (bind m (fun _ => k))
  (at level 100, right associativity) : io_scope.
Local Open Scope io_scope.

(** [try: body / except Exception: handler] *)
Definition try_except {A} (body : IO A) (handler : exn -> IO A) : IO A :=
  fun s =>
    match body s with
    | (Ok a, s') => (Ok a, s')
    | (Raise e, s') => handler e s'
    end.

(** [try: body / finally: cleanup]: the cleanup runs on every exit of the
    body; an exception of the cleanup replaces the outcome of the body. *)
Definition try_finally {A B} (body : IO A) (cleanup : IO B) : IO A :=
  fun s =>
    match body s with
    | (r, s') =>
        match cleanup s' with
        | (Ok _, s'') => (r, s'')
        | (Raise e, s'') => (Raise e, s'')
        end
    end.

(** [stream.tell()] *)
Definition tell : IO Z := fun s => (Ok (Z.of_N (position s)), s).

(** [stream.seek(n)]: absolute; a negative target raises [ValueError]. *)
Definition seek (n : Z) : IO Z :=
  fun s =>
    if n <? 0 then (Raise ValueError, s)
    else (Ok n, mkBytesIO (getvalue s) (Z.to_N n)).

(** [stream.read(n)]: at most [n] bytes from the cursor (all that remain
    when [n] is negative); the cursor advances by what was returned. *)
Definition read (n : Z) : IO bytes :=
  fun s =>
    let avail := skipn (N.to_nat (position s)) (getvalue s) in
    let out := if n <? 0 then avail else firstn (Z.to_nat n) avail in
    (Ok out, mkBytesIO (getvalue s) (position s + N.of_nat (List.length out))).

(** [for x in xs: acc = body(acc, x)] *)
Fixpoint for_each {A B} (xs : list A) (body : B -> A -> IO B) (acc : B) : IO B :=
  match xs with
  | [] => ret acc
  | x :: xs' => acc' <- body acc x ;; for_each xs' body acc'
  end.

(** [range(n)] *)
Definition range (n : Z) : list Z := List.map Z.of_nat (seq 0 (Z.to_nat n)).

(** ** The construct library: what the decoders use of it *)

(** A construct parses from a buffer at a cursor and reports the cursor it
    stopped at; it never writes to the buffer. *)
Definition Construct (A : Type) : Type := bytes -> N -> result A * N.

(** [con.parse_stream(stream)] *)
Definition parse_stream {A} (con : Construct A) : IO A :=
  fun s =>
    match con (getvalue s) (position s) with
    | (r, p) => (r, mkBytesIO (getvalue s) p)
    end.

(** [con.parse(data)]: parse from a fresh stream over [data]. *)
Definition parse {A} (con : Construct A) (data : bytes) : result A :=
  fst (con data 0%N).

Definition construct_of {A} (m : IO A) : Construct A :=
  fun data p =>
    match m (mkBytesIO data p) with
    | (r, s) => (r, position s)
    end.

(** construct's [stream_read]: exactly [n] bytes or [StreamError]. *)
Definition stream_read (n : Z) : IO bytes :=
  if n <? 0 then raise StreamError
  else
    data <- read n ;;
    if Z.of_nat (List.length data) =? n then ret data else raise StreamError.

(** Little-endian unsigned value of a byte string. *)
Fixpoint int_le (bs : bytes) : Z :=
  match bs with
  | [] => 0
  | b :: t => Z.of_N (Byte.to_N b) + 256 * int_le t
  end.

Definition IntNul (width : Z) : Construct Z :=
  construct_of (data <- stream_read width ;; ret (int_le data)).

Definition Int16ul : Construct Z := IntNul 2.
Definition Int32ul : Construct Z := IntNul 4.
Definition Int64ul : Construct Z := IntNul 8.

(** [PaddedString(length, encoding='utf8')]: a field of exactly [length]
    bytes, trailing null bytes dropped, decoded as UTF-8. *)
Definition PaddedString (length : Z) : Construct str :=
  construct_of
    (if length <? 0 then raise PaddingError
     else
       data <- stream_read length ;;
       lift (decode_utf8 (rstrip Byte.eqb x00 data))).

(** A [Container] whose fields the decoders never look at. *)
Definition Container : Type := list (string * Z).

(** [Container( **ref )]: a new container with the same items. *)
Definition Container_kwargs (ref : Container) : Container := ref.

(** ** Records of the layout schema

    Only the fields that prefetch.py reads or assigns are named. A field
    the decoder assigns after parsing is [None] until then. *)

Record Header : Type := mkHeader {
  Version : tag;
  RawSignature : bytes;
  RawExecutableName : str;
  RawPrefetchHash : Z;
  Signature : option str;
  ExecutableName : option str;
  PrefetchHash : option str
}.

Record FileInformation (datetime : Type) : Type := mkFileInformation {
  SectionAOffset : Z;
  SectionAEntriesCount : Z;
  SectionBOffset : Z;
  SectionBEntriesCount : Z;
  SectionCOffset : Z;
  SectionCLength : Z;
  SectionDOffset : Z;
  SectionDEntriesCount : Z;
  RawLastExecutionTime : list Z;
  LastExecutionTime : option (list datetime)
}.

Record FileMetricsEntry : Type := mkFileMetricsEntry {
  MetricsFields : Container;
  FileReference : option Container
}.

Record VolumeInformation (datetime : Type) : Type := mkVolumeInformation {
  VolumeDevicePathOffset : Z;
  VolumeDevicePathLength : Z;
  RawVolumeCreateTime : Z;
  SectionEOffset : Z;
  SectionFOffset : Z;
  SectionFStringsCount : Z;
  VolumeCreateTime : option datetime;
  VolumeDevicePath : option str
}.

Record FileReferences : Type := mkFileReferences {
  ReferenceCount : Z;
  References : list Container
}.

(** The [structures.prefetch] module ([pfstructs]): one construct per
    record layout. Its byte layouts are not part of prefetch.py. *)
Record pfstructs (datetime : Type) : Type := mkPfstructs {
  PrefetchVersion : Construct tag;
  PrefetchHeader : Construct Header;
  PrefetchFileInformation17 : Construct (FileInformation datetime);
  PrefetchFileInformation23 : Construct (FileInformation datetime);
  PrefetchFileInformation26 : Construct (FileInformation datetime);
  PrefetchFileInformation30 : Construct (FileInformation datetime);
  PrefetchFileMetricsEntry17 : Construct FileMetricsEntry;
  PrefetchFileMetricsEntry23 : Construct FileMetricsEntry;
  PrefetchFileMetricsEntry26 : Construct FileMetricsEntry;
  PrefetchFileMetricsEntry30 : Construct FileMetricsEntry;
  PrefetchVolumeInformation17 : Construct (VolumeInformation datetime);
  PrefetchVolumeInformation23 : Construct (VolumeInformation datetime);
  PrefetchVolumeInformation26 : Construct (VolumeInformation datetime);
  PrefetchVolumeInformation30 : Construct (VolumeInformation datetime);
  PrefetchFileNameString : Construct str;
  PrefetchTraceChainEntry : Construct Container;
  PrefetchFileReferences : Construct FileReferences
}.

(** The file system as the parser sees it: the bytes stored under a path. *)
Definition FileSystem : Type := string -> option bytes.

(** What prefetch.py imports from [lib.parsers] and [decompress]:
    [FileParser._clean_value], [WindowsTime.parse_filetime] and
    [DecompressWin10.decompress]. *)
Record Collaborators (datetime : Type) : Type := mkCollaborators {
  _clean_value : forall A : Type, A -> A;
  parse_filetime : Z -> result datetime;
  decompress : FileSystem -> string -> result bytes
}.

(** The parser object: its source path, the persisted stream, and the
    sections its decoders read through [self]. *)
Record Prefetch (datetime : Type) : Type := mkPrefetch {
  source : string;
  stream : option BytesIO;
  header : Header;
  file_info : FileInformation datetime;
  file_metrics : list FileMetricsEntry;
  volumes_info : list (VolumeInformation datetime)
}.

Definition set_header_fields (h : Header) (sig name hash : str) : Header :=
  mkHeader (Version h) (RawSignature h) (RawExecutableName h) (RawPrefetchHash h)
           (Some sig) (Some name) (Some hash).

Definition set_LastExecutionTime {datetime} (fi : FileInformation datetime)
    (ts : list datetime) : FileInformation datetime :=
  mkFileInformation (SectionAOffset fi) (SectionAEntriesCount fi)
    (SectionBOffset fi) (SectionBEntriesCount fi) (SectionCOffset fi)
    (SectionCLength fi) (SectionDOffset fi) (SectionDEntriesCount fi)
    (RawLastExecutionTime fi) (Some ts).

Definition set_FileReference (e : FileMetricsEntry) (r : Container) : FileMetricsEntry :=
  mkFileMetricsEntry (MetricsFields e) (Some r).

Definition set_VolumeCreateTime {datetime} (v : VolumeInformation datetime)
    (t : datetime) : VolumeInformation datetime :=
  mkVolumeInformation (VolumeDevicePathOffset v) (VolumeDevicePathLength v)
    (RawVolumeCreateTime v) (SectionEOffset v) (SectionFOffset v)
    (SectionFStringsCount v) (Some t) (VolumeDevicePath v).

Definition set_VolumeDevicePath {datetime} (v : VolumeInformation datetime)
    (p : str) : VolumeInformation datetime :=
  mkVolumeInformation (VolumeDevicePathOffset v) (VolumeDevicePathLength v)
    (RawVolumeCreateTime v) (SectionEOffset v) (SectionFOffset v)
    (SectionFStringsCount v) (VolumeCreateTime v) (Some p).

Definition set_References (r : FileReferences) (refs : list Container) : FileReferences :=
  mkFileReferences (ReferenceCount r) refs.

Definition set_stream {datetime} (self : Prefetch datetime) (s : BytesIO)
    : Prefetch datetime :=
  mkPrefetch (source self) (Some s) (header self) (file_info self)
             (file_metrics self) (volumes_info self).

(** [list(map(f, xs))] for an [f] that may raise. *)
Fixpoint map_result {A B} (f : A -> result B) (xs : list A) : result (list B) :=
  match xs with
  | [] => Ok []
  | x :: t =>
      match f x with
      | Raise e => Raise e
      | Ok y => rmap (cons y) (map_result f t)
      end
  end.

(** ** The section decoders of class [Prefetch] *)

Section Decoders.
Context {datetime : Type}.
Variable pf : pfstructs datetime.
Variable lib : Collaborators datetime.
Variable self : Prefetch datetime.

(** The body of the [try] of one directory string (lines 72-74). *)
Definition directory_string : IO str :=
  directory_string_length <- parse_stream Int16ul ;;
  raw <- read (directory_string_length * 2 + 2) ;;
  text <- lift (decode_utf16 raw) ;;
  ret (strip N.eqb 0%N text).

Definition directory_strings_entry (count : Z) : IO (list (option str)) :=
  for_each (range count)
    (fun entry _ =>
       try_except
         (text <- directory_string ;; ret (entry ++ [Some text]))
         (fun _ => ret (entry ++ [None])))
    [].

Definition _parse_directory_strings : IO (list (list (option str))) :=
  original_position <- tell ;;
  try_finally
    (directory_strings <-
       for_each (volumes_info self)
         (fun directory_strings volumes_info_entry =>
            seek (SectionDOffset (file_info self)
                  + SectionFOffset volumes_info_entry) ;;;
            entry <- directory_strings_entry
                       (SectionFStringsCount volumes_info_entry) ;;
            ret (directory_strings ++ [entry]))
         [] ;;
     ret (_clean_value lib directory_strings))
    (seek original_position).

(** The body of the [try] of one volume's reference table (lines 97-99). *)
Definition file_refs_entry (volumes_info_entry : VolumeInformation datetime)
    : IO FileReferences :=
  seek (SectionDOffset (file_info self) + SectionEOffset volumes_info_entry) ;;;
  entry <- parse_stream (PrefetchFileReferences pf) ;;
  ret (set_References entry (List.map Container_kwargs (References entry))).

Definition _parse_file_references : IO (list (option FileReferences)) :=
  original_position <- tell ;;
  try_finally
    (file_refs <-
       for_each (volumes_info self)
         (fun file_refs volumes_info_entry =>
            try_except
              (entry <- file_refs_entry volumes_info_entry ;;
               ret (file_refs ++ [Some entry]))
              (fun _ => ret (file_refs ++ [None])))
         [] ;;
     ret (_clean_value lib file_refs))
    (seek original_position).

Definition PrefetchVolumeInformation : Construct (VolumeInformation datetime) :=
  if tag_eq (Version (header self)) "XP" then PrefetchVolumeInformation17 pf
  else if tag_eq (Version (header self)) "SEVEN" then PrefetchVolumeInformation23 pf
  else if tag_eq (Version (header self)) "EIGHT" then PrefetchVolumeInformation26 pf
  else PrefetchVolumeInformation30 pf.

(** One turn of the loop of [_parse_volumes_info] (lines 130-140). The
    append of line 139 is left to the loop: the seek of line 140 that
    follows it goes back to a position [tell] returned and cannot fail. *)
Definition volumes_info_entry : IO (VolumeInformation datetime) :=
  entry <- parse_stream PrefetchVolumeInformation ;;
  volumes_info_position <- tell ;;
  created <- lift (parse_filetime lib (RawVolumeCreateTime entry)) ;;
  seek (SectionDOffset (file_info self) + VolumeDevicePathOffset entry) ;;;
  raw <- read (VolumeDevicePathLength entry * 2) ;;
  path <- lift (parse (PaddedString (VolumeDevicePathLength entry))
                      (replace Byte.eqb [x00] [] raw)) ;;
  seek volumes_info_position ;;;
  ret (set_VolumeDevicePath (set_VolumeCreateTime entry created) path).

Definition _parse_volumes_info : IO (list (VolumeInformation datetime)) :=
  original_position <- tell ;;
  try_finally
    (seek (SectionDOffset (file_info self)) ;;;
     volumes <-
       for_each (range (SectionDEntriesCount (file_info self)))
         (fun volumes _ =>
            entry <- volumes_info_entry ;;
            ret (volumes ++ [entry]))
         [] ;;
     ret (_clean_value lib volumes))
    (seek original_position).

Definition _parse_filename_strings : IO (list (option str)) :=
  original_position <- tell ;;
  try_finally
    (seek (SectionCOffset (file_info self)) ;;;
     filename_strings <-
       for_each (file_metrics self)
         (fun filename_strings _ =>
            here <- tell ;;
            if here - SectionCOffset (file_info self)
               <=? SectionCLength (file_info self)
            then
              name <- parse_stream (PrefetchFileNameString pf) ;;
              ret (filename_strings ++ [Some name])
            else ret (filename_strings ++ [None]))
         [] ;;
     ret (_clean_value lib filename_strings))
    (seek original_position).

Definition _parse_trace_chains : IO (list Container) :=
  original_position <- tell ;;
  try_finally
    (seek (SectionBOffset (file_info self)) ;;;
     trace_chains <-
       for_each (range (SectionBEntriesCount (file_info self)))
         (fun trace_chains _ =>
            entry <- parse_stream (PrefetchTraceChainEntry pf) ;;
            ret (trace_chains ++ [entry]))
         [] ;;
     ret (_clean_value lib trace_chains))
    (seek original_position).

Definition PrefetchFileMetricsEntry : Construct FileMetricsEntry :=
  if tag_eq (Version (header self)) "XP" then PrefetchFileMetricsEntry17 pf
  else if tag_eq (Version (header self)) "SEVEN" then PrefetchFileMetricsEntry23 pf
  else if tag_eq (Version (header self)) "EIGHT" then PrefetchFileMetricsEntry26 pf
  else PrefetchFileMetricsEntry30 pf.

(** One turn of the loop of [_parse_file_metrics] (lines 210-212);
    [hasattr(entry, 'FileReference')] is the field being present. *)
Definition file_metrics_entry : IO FileMetricsEntry :=
  parsed <- parse_stream PrefetchFileMetricsEntry ;;
  let entry := _clean_value lib parsed in
  ret (match FileReference entry with
       | Some ref => set_FileReference entry (_clean_value lib ref)
       | None => entry
       end).

Definition _parse_file_metrics : IO (list FileMetricsEntry) :=
  original_position <- tell ;;
  try_finally
    (seek (SectionAOffset (file_info self)) ;;;
     metrics <-
       for_each (range (SectionAEntriesCount (file_info self)))
         (fun metrics _ =>
            entry <- file_metrics_entry ;;
            ret (metrics ++ [entry]))
         [] ;;
     ret (_clean_value lib metrics))
    (seek original_position).

Definition PrefetchFileInformation : Construct (FileInformation datetime) :=
  if tag_eq (Version (header self)) "XP" then PrefetchFileInformation17 pf
  else if tag_eq (Version (header self)) "SEVEN" then PrefetchFileInformation23 pf
  else if tag_eq (Version (header self)) "EIGHT" then PrefetchFileInformation26 pf
  else PrefetchFileInformation30 pf.

Definition _parse_file_info : IO (FileInformation datetime) :=
  info <- parse_stream PrefetchFileInformation ;;
  times <- lift (map_result (parse_filetime lib) (RawLastExecutionTime info)) ;;
  ret (_clean_value lib (set_LastExecutionTime info times)).

Definition _parse_header : IO Header :=
  parsed <- parse_stream (PrefetchHeader pf) ;;
  signature <- lift (decode_utf8 (RawSignature parsed)) ;;
  name <- lift (item (split N.eqb 0%N (RawExecutableName parsed)) 0) ;;
  ret (_clean_value lib
         (set_header_fields parsed signature name
            (upper (replace N.eqb (str_of_string "0x") []
                              (hex (RawPrefetchHash parsed)))))).

(** ** Opening the byte source *)

(** [open(path, 'rb')] *)
Definition open (fs : FileSystem) (path : string) : result BytesIO :=
  match fs path with
  | Some data => Ok (mkBytesIO data 0%N)
  | None => Raise OSError
  end.

(** [__get_version]: the probe parses the version tag from a handle of
    its own; the second component is that handle as the probe left it. *)
Definition get_version_probe (fs : FileSystem)
    : result (option tag * BytesIO) :=
  match open fs (source self) with
  | Raise e => Raise e
  | Ok handle =>
      match parse_stream (PrefetchVersion pf) handle with
      | (Ok version, handle') => Ok (Some version, handle')
      | (Raise _, handle') => Ok (None, handle')
      end
  end.

Definition __get_version (fs : FileSystem) : result (option tag) :=
  rmap fst (get_version_probe fs).

(** Modelled from the spec: [FileParser.create_stream] (lib/parsers is
    not in src/). Section 4.2: the raw bytes are used directly as the
    byte source; [persist] keeps the stream on the parser. *)
Definition FileParser_create_stream (fs : FileSystem) (persist : bool)
    : result BytesIO * Prefetch datetime :=
  match open fs (source self) with
  | Raise e => (Raise e, self)
  | Ok raw => (Ok raw, if persist then set_stream self raw else self)
  end.

(** [create_stream]: the stream, and the parser object afterwards. *)
Definition create_stream (fs : FileSystem) (persist : bool)
    : result BytesIO * Prefetch datetime :=
  match __get_version fs with
  | Raise e => (Raise e, self)
  | Ok None =>
      match decompress lib fs (source self) with
      | Raise e => (Raise e, self)
      | Ok plain =>
          let stream := mkBytesIO plain 0%N in
          (Ok stream, if persist then set_stream self stream else self)
      end
  | Ok (Some _) => FileParser_create_stream fs persist
  end.

End Decoders.

(** ** A small concrete layout

    The theorems below hold for every [pfstructs]; this instance, with
    fixed little-endian fields, is the one they are run on. *)

Module Fixture.

Definition datetime : Type := Z.

Definition u16 : IO Z := parse_stream Int16ul.
Definition u32 : IO Z := parse_stream Int32ul.
Definition u64 : IO Z := parse_stream Int64ul.

(** [Enum(Int32ul, XP=17, SEVEN=23, EIGHT=26, TEN=30)]: the label of a
    mapped number, the bare integer of any other. *)
Definition version_enum : IO tag :=
  n <- u32 ;;
  if n =? 17 then ret (TagStr "XP")
  else if n =? 23 then ret (TagStr "SEVEN")
  else if n =? 26 then ret (TagStr "EIGHT")
  else if n =? 30 then ret (TagStr "TEN")
  else ret (TagInt n).

(** Version, signature, 8 unused bytes, a 60-byte UTF-16 name field, the
    hash, 4 unused bytes: 84 bytes. *)
Definition header_struct : IO Header :=
  version <- version_enum ;;
  signature <- stream_read 4 ;;
  stream_read 8 ;;;
  name_field <- stream_read 60 ;;
  name <- lift (utf16_units false name_field) ;;
  hash <- u32 ;;
  stream_read 4 ;;;
  ret (mkHeader version signature name hash None None None).

Fixpoint times (n : nat) : IO (list Z) :=
  match n with
  | O => ret []
  | S k => t <- u64 ;; ts <- times k ;; ret (t :: ts)
  end.

Definition file_information (runs : nat) : IO (FileInformation datetime) :=
  a <- u32 ;; na <- u32 ;; b <- u32 ;; nb <- u32 ;;
  c <- u32 ;; lc <- u32 ;; d <- u32 ;; nd <- u32 ;;
  raw <- times runs ;;
  ret (mkFileInformation a na b nb c lc d nd raw None).

Definition metrics_entry (with_reference : bool) : IO FileMetricsEntry :=
  start <- u32 ;; duration <- u32 ;; name_offset <- u32 ;;
  if with_reference
  then
    ref <- u64 ;;
    ret (mkFileMetricsEntry
           [("StartTime", start); ("Duration", duration);
            ("FileNameOffset", name_offset)]%string
           (Some [("MFTEntryIndex", ref)]%string))
  else
    ret (mkFileMetricsEntry
           [("StartTime", start); ("Duration", duration);
            ("FileNameOffset", name_offset)]%string
           None).

Definition volume_information : IO (VolumeInformation datetime) :=
  path_offset <- u32 ;; path_length <- u32 ;; created <- u64 ;;
  e <- u32 ;; f <- u32 ;; nf <- u32 ;;
  ret (mkVolumeInformation path_offset path_length created e f nf None None).

(** A 2-byte count of code units, then that many UTF-16 code units. *)
Definition filename_string : IO str :=
  n <- u16 ;;
  raw <- stream_read (n * 2) ;;
  lift (utf16_units false raw).

Definition trace_chain_entry : IO Container :=
  next <- u32 ;; blocks <- u32 ;;
  ret [("NextEntryIndex", next); ("BlocksLoadedCount", blocks)]%string.

Fixpoint references (n : nat) : IO (list Container) :=
  match n with
  | O => ret []
  | S k =>
      r <- u64 ;; rs <- references k ;;
      ret ([("MFTEntryIndex", r)]%string :: rs)
  end.

Definition file_references : IO FileReferences :=
  n <- u32 ;;
  refs <- references (Z.to_nat n) ;;
  ret (mkFileReferences n refs).

Definition layout : pfstructs datetime :=
  mkPfstructs
    (construct_of version_enum)
    (construct_of header_struct)
    (construct_of (file_information 1)) (construct_of (file_information 1))
    (construct_of (file_information 8)) (construct_of (file_information 8))
    (construct_of (metrics_entry false)) (construct_of (metrics_entry true))
    (construct_of (metrics_entry true)) (construct_of (metrics_entry true))
    (construct_of volume_information) (construct_of volume_information)
    (construct_of volume_information) (construct_of volume_information)
    (construct_of filename_string)
    (construct_of trace_chain_entry)
    (construct_of file_references).

(** A container format that stores its payload as it is after a 4-byte
    marker; anything else does not decompress. *)
Definition stored (fs : FileSystem) (path : string) : result bytes :=
  match fs path with
  | None => Raise OSError
  | Some (x4d :: x41 :: x4d :: x04 :: payload) => Ok payload
  | Some _ => Raise (LibError 2)
  end.

Definition lib : Collaborators datetime :=
  mkCollaborators
    (fun _ a => a)
    (fun ticks => Ok (ticks / 10 - 11644473600000000))
    stored.

(** Test data: little-endian numbers and UTF-16 text. *)
Definition byte_of (n : Z) : byte :=
  match Byte.of_N (Z.to_N (n mod 256)) with
  | Some b => b
  | None => x00
  end.

Fixpoint le (width : nat) (n : Z) : bytes :=
  match width with
  | O => []
  | S w => byte_of n :: le w (n / 256)
  end.

Definition utf16le (s : string) : bytes :=
  flat_map (fun c => [byte_of_ascii c; x00]) (list_ascii_of_string s).

(** An 84-byte header record. *)
Definition header_bytes (version hash : Z) (name : string) : bytes :=
  le 4 version ++ [x53; x43; x43; x41] ++ le 8 0
    ++ firstn 60 (utf16le name ++ List.repeat x00 60)
    ++ le 4 hash ++ le 4 0.

Definition offsets (a na c lc d nd : Z) : FileInformation datetime :=
  mkFileInformation a na 0 0 c lc d nd [] None.

Definition parser (version : string) (info : FileInformation datetime)
    (metrics : list FileMetricsEntry) (volumes : list (VolumeInformation datetime))
    : Prefetch datetime :=
  mkPrefetch "a.pf" None
    (mkHeader (TagStr version) [] [] 0 None None None) info metrics volumes.

Definition volume (path_offset path_length e f nf : Z) : VolumeInformation datetime :=
  mkVolumeInformation path_offset path_length 0 e f nf None None.

Definition a_metric : FileMetricsEntry := mkFileMetricsEntry [] None.

(** One directory string as stored: length field, text, terminator. *)
Definition stored_string (text : string) : bytes :=
  le 2 (Z.of_nat (String.length text)) ++ utf16le text ++ [x00; x00].

(** Two directory-string tables: three strings, the second with a lone
    low surrogate in its run, then a table of one string at offset 20. *)
Definition directory_data : bytes :=
  stored_string "ab" ++ (le 2 1 ++ [x00; xdc; x00; x00]) ++ stored_string "c"
    ++ stored_string "d".

(** A metrics array at offset 4: one whole version-17 record, then 5 bytes. *)
Definition metrics_data : bytes :=
  le 4 0 ++ (le 4 1 ++ le 4 2 ++ le 4 3) ++ [x01; x02; x03; x04; x05].

(** A volumes table at offset 0: two records, then their device paths. *)
Definition volumes_data (path0 path1 : bytes) (length0 length1 : Z) : bytes :=
  le 4 56 ++ le 4 length0 ++ le 8 10 ++ le 4 0 ++ le 4 0 ++ le 4 0
    ++ le 4 (56 + Z.of_nat (List.length path0)) ++ le 4 length1 ++ le 8 20
    ++ le 4 0 ++ le 4 0 ++ le 4 0
    ++ path0 ++ path1.

(** A file system holding one file, under the path of [parser]. *)
Definition disk (content : bytes) : FileSystem :=
  fun path => if String.eqb path "a.pf" then Some content else None.

(** One filename string as stored: count of code units, then the text. *)
Definition stored_name (text : string) : bytes :=
  le 2 (Z.of_nat (String.length text)) ++ utf16le text.

(** A filename table of declared length 4 at offset 0, holding the one
    string "A"; the bytes after it belong to whatever follows the table. *)
Definition filename_data : bytes :=
  stored_name "A" ++ stored_name "B" ++ stored_name "C".

(** Offsets of a trace-chain array only. *)
Definition trace_offsets (b nb : Z) : FileInformation datetime :=
  mkFileInformation 0 0 b nb 0 0 0 0 [] None.

(** Two trace-chain records at offset 4, then 3 stray bytes. *)
Definition trace_data : bytes :=
  le 4 0 ++ (le 4 1 ++ le 4 5) ++ (le 4 2 ++ le 4 6) ++ [x01; x02; x03].

(** A parser object whose header carries the given Version value. *)
Definition parser_tagged (version : tag) (info : FileInformation datetime)
    (metrics : list FileMetricsEntry) (volumes : list (VolumeInformation datetime))
    : Prefetch datetime :=
  mkPrefetch "a.pf" None
    (mkHeader version [] [] 0 None None None) info metrics volumes.



(** A metrics array at offset 4: one record with a file reference. *)
Definition metrics_data30 : bytes :=
  le 4 0 ++ le 4 1 ++ le 4 2 ++ le 4 3 ++ le 8 9.

End Fixture.

(** ** Definitions the statements are written with *)

(** [n] bytes of the buffer [d] from cursor [p] (fewer at the end). *)
Definition slice (d : bytes) (p : N) (n : Z) : bytes :=
  firstn (Z.to_nat n) (skipn (N.to_nat p) d).

(** The loop [for x in xs: out.append(step(x))] as one computation. *)
Fixpoint collect {A B} (step : A -> IO B) (xs : list A) : IO (list B) :=
  match xs with
  | [] => ret []
  | x :: t => y <- step x ;; ys <- collect step t ;; ret (y :: ys)
  end.

(** [try: out.append(m()) / except Exception: out.append(None)] *)
Definition attempt {A} (m : IO A) : IO (option A) :=
  try_except (a <- m ;; ret (Some a)) (fun _ => ret None).

(** [runs m n s l s']: [n] consecutive turns of [m] from the stream [s] all
    succeed, yield [l] in order and leave the stream [s']. *)
Inductive runs {A} (m : IO A) : nat -> BytesIO -> list A -> BytesIO -> Prop :=
| runs_O : forall s, runs m O s [] s
| runs_S : forall n s a s' l s'',
    m s = (Ok a, s') -> runs m n s' l s'' -> runs m (S n) s (a :: l) s''.

(** The common shape of the file_metrics, trace_chains and volumes_info
    decoders: seek to the array, take [count] turns of [m], normalise. *)
Definition fixed_array {A} (offset count : Z) (m : IO A)
    (clean : list A -> list A) : IO (list A) :=
  original_position <- tell ;;
  try_finally
    (seek offset ;;;
     entries <-
       for_each (range count) (fun entries _ => entry <- m ;; ret (entries ++ [entry])) [] ;;
     ret (clean entries))
    (seek original_position).

(** A computation that leaves the buffer of the stream as it was. *)
Definition keeps_buffer {A} (m : IO A) : Prop :=
  forall s, getvalue (snd (m s)) = getvalue s.

(** What [stream.read(n)] returns at cursor [p] of the buffer [d]. *)
Definition bytes_read (d : bytes) (p : N) (n : Z) : bytes :=
  if n <? 0 then skipn (N.to_nat p) d else slice d p n.

(** One directory string at cursor [p], in the words of section 4.9: a
    2-byte length field, then [length*2 + 2] bytes decoded as UTF-16 with
    the null padding stripped; absent when that fails. The second
    component is the cursor afterwards. *)
Definition directory_string_at (d : bytes) (p : N) : option str * N :=
  let field := slice d p 2 in
  let q := (p + N.of_nat (List.length field))%N in
  if Z.of_nat (List.length field) =? 2 then
    let run := slice d q (int_le field * 2 + 2) in
    (match decode_utf16 run with
     | Ok text => Some (strip N.eqb 0%N text)
     | Raise _ => None
     end,
     (q + N.of_nat (List.length run))%N)
  else (None, q).

(** [n] directory strings in on-disk order from cursor [p]. *)
Fixpoint directory_strings_from (d : bytes) (p : N) (n : nat) : list (option str) :=
  match n with
  | O => []
  | S k =>
      fst (directory_string_at d p)
        :: directory_strings_from d (snd (directory_string_at d p)) k
  end.

(** One volume's reference table, decoded at [base + SectionEOffset]. *)
Definition file_references_at {datetime} (pf : pfstructs datetime) (d : bytes)
    (base : Z) (v : VolumeInformation datetime) : option FileReferences :=
  if base + SectionEOffset v <? 0 then None
  else
    match PrefetchFileReferences pf d (Z.to_N (base + SectionEOffset v)) with
    | (Ok table, _) =>
        Some (set_References table (List.map Container_kwargs (References table)))
    | (Raise _, _) => None
    end.

(** The device path in the words of section 4.7: the run of [length]
    UTF-16 code units at [base + offset], null padding stripped. *)
Definition device_path_as_stated {datetime} (d : bytes) (base : Z)
    (v : VolumeInformation datetime) : result str :=
  rmap (List.filter (fun c => negb (c =? 0)%N))
       (decode_utf16 (slice d (Z.to_N (base + VolumeDevicePathOffset v))
                            (VolumeDevicePathLength v * 2))).

(** UTF-16LE bytes of a text of code points below 256. *)
Definition utf16le_of (text : str) : bytes :=
  flat_map (fun c => [Fixture.byte_of (Z.of_N c); x00]) text.

(** The bytes of a text of code points below 256, one each. *)
Definition ascii_bytes (text : str) : bytes :=
  List.map (fun c => Fixture.byte_of (Z.of_N c)) text.

(** Non-null ASCII text. *)
Definition ascii_text (text : str) : Prop :=
  Forall (fun c => (0 < c < 128)%N) text.

(** Digits of an uppercase hexadecimal numeral and their value. *)
Definition is_upper_hex (c : N) : bool :=
  ((48 <=? c) && (c <=? 57) || (65 <=? c) && (c <=? 70))%N.

Definition hex_digit_value (c : N) : Z :=
  if (c <=? 57)%N then Z.of_N c - 48 else Z.of_N c - 55.

Definition hex_value (s : str) : Z :=
  fold_left (fun acc c => acc * 16 + hex_digit_value c) s 0.

(** A directory string as it is stored: the count of code units, the text
    in UTF-16LE, a null code unit. *)
Definition encode_directory_string (text : str) : bytes :=
  Fixture.le 2 (Z.of_nat (List.length text)) ++ utf16le_of text ++ [x00; x00].

(** The body of the loop of [_parse_filename_strings] (lines 159-164),
    under a name. *)
Definition filename_turn {datetime} (pf : pfstructs datetime)
    (self : Prefetch datetime)
    : list (option str) -> FileMetricsEntry -> IO (list (option str)) :=
  fun filename_strings _ =>
    here <- tell ;;
    if here - SectionCOffset (file_info self) <=? SectionCLength (file_info self)
    then
      name <- parse_stream (PrefetchFileNameString pf) ;;
      ret (filename_strings ++ [Some name])
    else ret (filename_strings ++ [None]).

(** ** Facts about the monad and the stream *)

Lemma seek_back (s : BytesIO) (p : N) :
  seek (Z.of_N p) s = (Ok (Z.of_N p), mkBytesIO (getvalue s) p).
Proof.
  unfold seek.
  destruct (Z.of_N p <? 0) eqn:E.
  - apply Z.ltb_lt in E. lia.
  - now rewrite N2Z.id.
Qed.

Lemma seek_to (s : BytesIO) (n : Z) :
  0 <= n -> seek n s = (Ok n, mkBytesIO (getvalue s) (Z.to_N n)).
Proof.
  intros H. unfold seek.
  destruct (n <? 0) eqn:E; [apply Z.ltb_lt in E; lia | reflexivity].
Qed.

Lemma bind_ok {A B} (m : IO A) (k : A -> IO B) s a s' :
  m s = (Ok a, s') -> bind m k s = k a s'.
Proof. intros H. unfold bind. now rewrite H. Qed.

Lemma bind_raise {A B} (m : IO A) (k : A -> IO B) s e s' :
  m s = (Raise e, s') -> bind m k s = (Raise e, s').
Proof. intros H. unfold bind. now rewrite H. Qed.

(** The [try/finally] frame of the six seeking decoders. *)
Lemma finally_restores_position {A} (body : IO A) (s : BytesIO) :
  position (snd ((original <- tell ;; try_finally body (seek original)) s))
  = position s.
Proof.
  unfold bind, tell, try_finally. simpl.
  destruct (body s) as [r s'].
  now rewrite seek_back.
Qed.

Lemma finally_restores {A} (body : IO A) (s : BytesIO) :
  keeps_buffer body ->
  (original <- tell ;; try_finally body (seek original)) s = (fst (body s), s).
Proof.
  intros K. unfold bind, tell, try_finally. simpl.
  specialize (K s). destruct (body s) as [r s']. simpl in *.
  rewrite seek_back, K. now destruct s.
Qed.

Lemma keeps_ret {A} (a : A) : keeps_buffer (ret a).
Proof. now intros s. Qed.

Lemma keeps_raise {A} (e : exn) : keeps_buffer (@raise A e).
Proof. now intros s. Qed.

Lemma keeps_lift {A} (r : result A) : keeps_buffer (lift r).
Proof. now intros s. Qed.

Lemma keeps_tell : keeps_buffer tell.
Proof. now intros s. Qed.

Lemma keeps_seek (n : Z) : keeps_buffer (seek n).
Proof. intros s. unfold seek. now destruct (n <? 0). Qed.

Lemma keeps_read (n : Z) : keeps_buffer (read n).
Proof. now intros s. Qed.

Lemma keeps_parse_stream {A} (con : Construct A) : keeps_buffer (parse_stream con).
Proof. intros s. unfold parse_stream. now destruct (con _ _). Qed.

Lemma keeps_bind {A B} (m : IO A) (k : A -> IO B) :
  keeps_buffer m -> (forall a, keeps_buffer (k a)) -> keeps_buffer (bind m k).
Proof.
  intros Km Kk s. unfold bind. specialize (Km s).
  destruct (m s) as [[a | e] s']; simpl in *; [| assumption].
  now rewrite Kk.
Qed.

Lemma keeps_try_except {A} (m : IO A) (h : exn -> IO A) :
  keeps_buffer m -> (forall e, keeps_buffer (h e)) -> keeps_buffer (try_except m h).
Proof.
  intros Km Kh s. unfold try_except. specialize (Km s).
  destruct (m s) as [[a | e] s']; simpl in *; [assumption |].
  now rewrite Kh.
Qed.

Lemma keeps_for_each {A B} (xs : list A) (body : B -> A -> IO B) :
  (forall acc x, keeps_buffer (body acc x)) ->
  forall acc, keeps_buffer (for_each xs body acc).
Proof.
  intros Kb. induction xs as [| x t IH]; intros acc; simpl.
  - apply keeps_ret.
  - apply keeps_bind; [apply Kb | exact IH].
Qed.

Lemma keeps_if {A} (b : bool) (m1 m2 : IO A) :
  keeps_buffer m1 -> keeps_buffer m2 -> keeps_buffer (if b then m1 else m2).
Proof. now destruct b. Qed.

Create HintDb buffer.
#[local] Hint Resolve keeps_ret keeps_raise keeps_lift keeps_tell keeps_seek
  keeps_read keeps_parse_stream : buffer.

(** Buffer preservation of a decoder body, by its structure. *)
Ltac keeps := repeat (intros; first
  [ assumption | apply keeps_bind | apply keeps_try_except
  | apply keeps_for_each | apply keeps_if | solve [auto with buffer] ]).

(** *** Loops that append *)

Lemma for_each_ext {A B} (xs : list A) (f g : B -> A -> IO B) :
  (forall acc x s, f acc x s = g acc x s) ->
  forall acc s, for_each xs f acc s = for_each xs g acc s.
Proof.
  intros E. induction xs as [| x t IH]; intros acc s; simpl; [reflexivity |].
  unfold bind. rewrite E.
  destruct (g acc x s) as [[a | e] s']; [apply IH | reflexivity].
Qed.

Lemma for_each_collect {A B} (step : A -> IO B) (xs : list A) :
  forall (acc : list B) s,
    for_each xs (fun acc x => y <- step x ;; ret (acc ++ [y])) acc s
    = (ys <- collect step xs ;; ret (acc ++ ys)) s.
Proof.
  induction xs as [| x t IH]; intros acc s; simpl; unfold bind, ret in *.
  - now rewrite app_nil_r.
  - destruct (step x s) as [[y | e] s1]; [| reflexivity].
    rewrite IH.
    destruct (collect step t s1) as [[ys | e] s2]; [| reflexivity].
    now rewrite <- app_assoc.
Qed.

Lemma attempt_append {A} (m : IO A) (acc : list (option A)) (s : BytesIO) :
  try_except (a <- m ;; ret (acc ++ [Some a])) (fun _ => ret (acc ++ [None])) s
  = (y <- attempt m ;; ret (acc ++ [y])) s.
Proof.
  unfold attempt, try_except, bind, ret.
  now destruct (m s) as [[a | e] s'].
Qed.

Lemma collect_runs_ok {A B} (m : IO B) (xs : list A) s l s' :
  runs m (List.length xs) s l s' -> collect (fun _ => m) xs s = (Ok l, s').
Proof.
  revert s l. induction xs as [| x t IH]; intros s l R; simpl in *.
  - inversion R; subst. reflexivity.
  - inversion R; subst. unfold bind. rewrite H0.
    now rewrite (IH _ _ H1).
Qed.

Lemma collect_runs_fail {A B} (m : IO B) (xs : list A) :
  forall n s l s' e s'',
    runs m n s l s' -> m s' = (Raise e, s'') -> (n < List.length xs)%nat ->
    collect (fun _ => m) xs s = (Raise e, s'').
Proof.
  induction xs as [| x t IH]; intros n s l s' e s'' R F Hn; simpl in *; [lia |].
  inversion R; subst.
  - unfold bind. now rewrite F.
  - unfold bind. rewrite H.
    rewrite (IH _ _ _ _ _ _ H0 F); [reflexivity | lia].
Qed.

(** [runs] can be checked by running the loop. *)
Lemma runs_of_collect {A} (m : IO A) (n : nat) :
  forall s l s',
    collect (fun _ : unit => m) (List.repeat tt n) s = (Ok l, s') ->
    runs m n s l s'.
Proof.
  induction n as [| k IH]; intros s l s'; simpl.
  - unfold ret. intros H. inversion H; subst. constructor.
  - unfold bind at 1. destruct (m s) as [[a | e] s1] eqn:E; [| discriminate].
    unfold bind. destruct (collect _ _ s1) as [[ys | e] s2] eqn:E2;
      [| discriminate].
    unfold ret. intros H. inversion H; subst.
    econstructor; [exact E | now apply IH].
Qed.

Lemma runs_length {A} (m : IO A) n s l s' :
  runs m n s l s' -> List.length l = n.
Proof. induction 1; simpl; congruence. Qed.

Lemma runs_keep {A} (m : IO A) n s l s' :
  keeps_buffer m -> runs m n s l s' -> getvalue s' = getvalue s.
Proof.
  intros K. induction 1; [reflexivity |].
  rewrite IHruns. specialize (K s). now rewrite H in K.
Qed.

Lemma range_length (n : Z) : List.length (range n) = Z.to_nat n.
Proof. unfold range. now rewrite length_map, length_seq. Qed.

(** ** The cursor across a decoder call *)

(** C4, as stated, fails: [_parse_header] reads the header record and
    leaves the cursor behind it (84 bytes on in this layout). *)
Lemma header_decoder_moves_cursor :
  position (snd (_parse_header Fixture.layout Fixture.lib
                   (mkBytesIO (Fixture.header_bytes 30 1715004 "CALC.EXE") 0%N)))
  <> position (mkBytesIO (Fixture.header_bytes 30 1715004 "CALC.EXE") 0%N).
Proof. vm_compute. discriminate. Qed.

(** C4, amended: each of the six decoders that seek (directory strings,
    file references, volumes info, filename strings, trace chains, file
    metrics) leaves the cursor where it was before the call, whatever the
    outcome of its body; the header and file-info decoders read at the
    cursor and leave it where the record's construct stopped. *)
Theorem seeking_decoders_restore_cursor {datetime} (pf : pfstructs datetime)
    (lib : Collaborators datetime) (self : Prefetch datetime) (s : BytesIO) :
  position (snd (_parse_directory_strings lib self s)) = position s
  /\ position (snd (_parse_file_references pf lib self s)) = position s
  /\ position (snd (_parse_volumes_info pf lib self s)) = position s
  /\ position (snd (_parse_filename_strings pf lib self s)) = position s
  /\ position (snd (_parse_trace_chains pf lib self s)) = position s
  /\ position (snd (_parse_file_metrics pf lib self s)) = position s
  /\ position (snd (_parse_header pf lib s))
     = snd (PrefetchHeader pf (getvalue s) (position s))
  /\ position (snd (_parse_file_info pf lib self s))
     = snd (PrefetchFileInformation pf self (getvalue s) (position s)).
Proof.
  repeat split; try apply finally_restores_position.
  - unfold _parse_header, bind, parse_stream, lift, ret.
    destruct (PrefetchHeader pf _ _) as [[h | e] p]; simpl; [| reflexivity].
    destruct (decode_utf8 _); simpl; [| reflexivity].
    now destruct (item _ _).
  - unfold _parse_file_info, bind, parse_stream, lift, ret.
    destruct (PrefetchFileInformation pf self _ _) as [[i | e] p]; simpl;
      [| reflexivity].
    now destruct (map_result _ _).
Qed.

(** ** Version dispatch *)

Lemma tag_eq_false (t : tag) (literal : string) :
  t <> TagStr literal -> tag_eq t literal = false.
Proof.
  intros H. destruct t as [label | n]; simpl; [| reflexivity].
  apply String.eqb_neq. congruence.
Qed.

(** C10: under a header whose Version is none of 'XP', 'SEVEN', 'EIGHT'
    (another label, or the bare integer of an unmapped number), the
    file_info, file_metrics and volumes_info decoders are the decoders
    that parse with the version-30 constructs: the last branch of each
    dispatch is an unconditional else, and no version makes the dispatch
    raise. *)
Theorem unknown_version_uses_layout30 {datetime} (pf : pfstructs datetime)
    (lib : Collaborators datetime) (self : Prefetch datetime) :
  Version (header self) <> TagStr "XP" ->
  Version (header self) <> TagStr "SEVEN" ->
  Version (header self) <> TagStr "EIGHT" ->
  PrefetchFileInformation pf self = PrefetchFileInformation30 pf
  /\ PrefetchFileMetricsEntry pf self = PrefetchFileMetricsEntry30 pf
  /\ PrefetchVolumeInformation pf self = PrefetchVolumeInformation30 pf
  /\ _parse_file_info pf lib self
     = (info <- parse_stream (PrefetchFileInformation30 pf) ;;
        times <- lift (map_result (parse_filetime lib) (RawLastExecutionTime info)) ;;
        ret (_clean_value lib (set_LastExecutionTime info times)))
  /\ file_metrics_entry pf lib self
     = (parsed <- parse_stream (PrefetchFileMetricsEntry30 pf) ;;
        let entry := _clean_value lib parsed in
        ret (match FileReference entry with
             | Some ref => set_FileReference entry (_clean_value lib ref)
             | None => entry
             end))
  /\ _parse_file_metrics pf lib self
     = (original_position <- tell ;;
        try_finally
          (seek (SectionAOffset (file_info self)) ;;;
           metrics <-
             for_each (range (SectionAEntriesCount (file_info self)))
               (fun metrics _ =>
                  entry <-
                    (parsed <- parse_stream (PrefetchFileMetricsEntry30 pf) ;;
                     let entry := _clean_value lib parsed in
                     ret (match FileReference entry with
                          | Some ref =>
                              set_FileReference entry (_clean_value lib ref)
                          | None => entry
                          end)) ;;
                  ret (metrics ++ [entry]))
               [] ;;
           ret (_clean_value lib metrics))
          (seek original_position))
  /\ volumes_info_entry pf lib self
     = (entry <- parse_stream (PrefetchVolumeInformation30 pf) ;;
        volumes_info_position <- tell ;;
        created <- lift (parse_filetime lib (RawVolumeCreateTime entry)) ;;
        seek (SectionDOffset (file_info self) + VolumeDevicePathOffset entry) ;;;
        raw <- read (VolumeDevicePathLength entry * 2) ;;
        path <- lift (parse (PaddedString (VolumeDevicePathLength entry))
                            (replace Byte.eqb [x00] [] raw)) ;;
        seek volumes_info_position ;;;
        ret (set_VolumeDevicePath (set_VolumeCreateTime entry created) path))
  /\ _parse_volumes_info pf lib self
     = (original_position <- tell ;;
        try_finally
          (seek (SectionDOffset (file_info self)) ;;;
           volumes <-
             for_each (range (SectionDEntriesCount (file_info self)))
               (fun volumes _ =>
                  entry <-
                    (entry <- parse_stream (PrefetchVolumeInformation30 pf) ;;
                     volumes_info_position <- tell ;;
                     created <- lift (parse_filetime lib
                                        (RawVolumeCreateTime entry)) ;;
                     seek (SectionDOffset (file_info self)
                           + VolumeDevicePathOffset entry) ;;;
                     raw <- read (VolumeDevicePathLength entry * 2) ;;
                     path <- lift (parse (PaddedString
                                            (VolumeDevicePathLength entry))
                                         (replace Byte.eqb [x00] [] raw)) ;;
                     seek volumes_info_position ;;;
                     ret (set_VolumeDevicePath
                            (set_VolumeCreateTime entry created) path)) ;;
                  ret (volumes ++ [entry]))
               [] ;;
           ret (_clean_value lib volumes))
          (seek original_position)).
Proof.
  intros Hxp Hseven Height.
  unfold _parse_file_info, _parse_file_metrics, _parse_volumes_info,
    file_metrics_entry, volumes_info_entry, PrefetchFileInformation,
    PrefetchFileMetricsEntry, PrefetchVolumeInformation.
  rewrite !(tag_eq_false Hxp), !(tag_eq_false Hseven), !(tag_eq_false Height).
  repeat split.
Qed.

Lemma unknown_version_uses_layout30_witness :
  fst (_parse_header Fixture.layout Fixture.lib
         (mkBytesIO (Fixture.header_bytes 99 1715004 "CALC.EXE") 0%N))
  = Ok (mkHeader (TagInt 99) [x53; x43; x43; x41]
          (str_of_string "CALC.EXE" ++ List.repeat 0%N 22) 1715004
          (Some (str_of_string "SCCA")) (Some (str_of_string "CALC.EXE"))
          (Some (str_of_string "1A2B3C")))
  /\ _parse_file_metrics Fixture.layout Fixture.lib
       (Fixture.parser_tagged (TagInt 99) (Fixture.offsets 4 1 0 0 0 0) [] [])
       (mkBytesIO Fixture.metrics_data30 0%N)
     = (Ok [mkFileMetricsEntry
              [("StartTime", 1); ("Duration", 2); ("FileNameOffset", 3)]%string
              (Some [("MFTEntryIndex", 9)]%string)],
        mkBytesIO Fixture.metrics_data30 0%N)
  /\ _parse_volumes_info Fixture.layout Fixture.lib
       (Fixture.parser_tagged (TagInt 99) (Fixture.offsets 0 0 0 0 0 2) [] [])
       (mkBytesIO
          (Fixture.volumes_data (Fixture.utf16le "C:") (Fixture.utf16le "D:") 2 2)
          0%N)
     = (Ok [mkVolumeInformation 56 2 10 0 0 0 (Some (-11644473599999999))
              (Some (str_of_string "C:"));
            mkVolumeInformation 60 2 20 0 0 0 (Some (-11644473599999998))
              (Some (str_of_string "D:"))],
        mkBytesIO
          (Fixture.volumes_data (Fixture.utf16le "C:") (Fixture.utf16le "D:") 2 2)
          0%N).
Proof.
  split; [vm_compute; reflexivity |].
  split.
  - destruct (@unknown_version_uses_layout30 _ Fixture.layout Fixture.lib
                (Fixture.parser_tagged (TagInt 99) (Fixture.offsets 4 1 0 0 0 0)
                   [] []))
      as (_ & _ & _ & _ & _ & Hmetrics & _); try discriminate.
    rewrite Hmetrics. vm_compute. reflexivity.
  - destruct (@unknown_version_uses_layout30 _ Fixture.layout Fixture.lib
                (Fixture.parser_tagged (TagInt 99) (Fixture.offsets 0 0 0 0 0 2)
                   [] []))
      as (_ & _ & _ & _ & _ & _ & _ & Hvolumes); try discriminate.
    rewrite Hvolumes. vm_compute. reflexivity.
Defined.

(** ** File references *)

Lemma collect_file_refs {datetime} (pf : pfstructs datetime)
    (self : Prefetch datetime) (vs : list (VolumeInformation datetime)) :
  forall s, exists p,
    collect (fun v => attempt (file_refs_entry pf self v)) vs s
    = (Ok (List.map (file_references_at pf (getvalue s)
                       (SectionDOffset (file_info self))) vs),
       mkBytesIO (getvalue s) p).
Proof.
  induction vs as [| v t IH]; intros s; simpl.
  - exists (position s). unfold ret. now destruct s.
  - unfold bind at 1.
    assert (exists q, attempt (file_refs_entry pf self v) s
                      = (Ok (file_references_at pf (getvalue s)
                               (SectionDOffset (file_info self)) v),
                         mkBytesIO (getvalue s) q)) as [q Hq].
    { unfold attempt, try_except, file_refs_entry, file_references_at, bind,
        seek, parse_stream, ret.
      destruct (_ <? 0); simpl; [exists (position s); now destruct s |].
      destruct (PrefetchFileReferences pf _ _) as [[table | e] q]; simpl;
        now exists q. }
    rewrite Hq. destruct (IH (mkBytesIO (getvalue s) q)) as [p Hp].
    unfold bind. rewrite Hp. simpl. unfold ret. now exists p.
Qed.

(** C8: the file_references decoder yields one item per VolumesInfo entry,
    in order: the table decoded at SectionDOffset + that entry's
    SectionEOffset, or absent when decoding that table fails; a failure
    never stops the decoding of the following volumes' tables. *)
Theorem file_references_per_volume {datetime} (pf : pfstructs datetime)
    (lib : Collaborators datetime) (self : Prefetch datetime) (s : BytesIO) :
  _parse_file_references pf lib self s
  = (Ok (_clean_value lib
           (List.map (file_references_at pf (getvalue s)
                        (SectionDOffset (file_info self)))
                     (volumes_info self))),
     s).
Proof.
  unfold _parse_file_references.
  rewrite finally_restores by keeps.
  f_equal.
  unfold bind at 1.
  rewrite (for_each_ext (volumes_info self) _
             (fun acc v => y <- attempt (file_refs_entry pf self v) ;;
                           ret (acc ++ [y])))
    by (intros; apply attempt_append).
  rewrite for_each_collect. unfold bind at 1.
  destruct (collect_file_refs pf self (volumes_info self) s) as [p Hp].
  now rewrite Hp.
Qed.

Example file_references_one_table_missing :
  fst (_parse_file_references Fixture.layout Fixture.lib
         (Fixture.parser "TEN" (Fixture.offsets 0 0 0 0 0 3) []
            [Fixture.volume 0 0 0 0 0; Fixture.volume 0 0 100 0 0;
             Fixture.volume 0 0 0 0 0])
         (mkBytesIO (Fixture.le 4 1 ++ Fixture.le 8 7) 5%N))
  = Ok [Some (mkFileReferences 1 [[("MFTEntryIndex", 7)]%string]);
        None;
        Some (mkFileReferences 1 [[("MFTEntryIndex", 7)]%string])].
Proof. vm_compute. reflexivity. Qed.

(** ** Directory strings *)

Lemma int_le_nonneg (bs : bytes) : 0 <= int_le bs.
Proof.
  induction bs as [| b t IH]; cbn [int_le]; [lia |].
  pose proof (N2Z.is_nonneg (Byte.to_N b)). lia.
Qed.

Lemma attempt_directory_string (d : bytes) (p : N) :
  attempt directory_string (mkBytesIO d p)
  = (Ok (fst (directory_string_at d p)),
     mkBytesIO d (snd (directory_string_at d p))).
Proof.
  unfold attempt, try_except, directory_string, directory_string_at, slice,
    parse_stream, Int16ul, IntNul, construct_of, stream_read, bind, read,
    ret, raise, lift.
  cbv zeta. cbn [getvalue position].
  change (2 <? 0) with false. cbv iota. cbn [getvalue position].
  set (field := firstn (Z.to_nat 2) (skipn (N.to_nat p) d)).
  destruct (Z.of_nat (List.length field) =? 2) eqn:E;
    cbn [fst snd getvalue position]; [| reflexivity].
  pose proof (int_le_nonneg field) as Hnn.
  destruct (int_le field * 2 + 2 <? 0) eqn:E2; [apply Z.ltb_lt in E2; lia |].
  cbn [fst snd getvalue position].
  now destruct (decode_utf16 _).
Qed.

Lemma collect_directory_strings {A} (xs : list A) (d : bytes) :
  forall p, exists q,
    collect (fun _ => attempt directory_string) xs (mkBytesIO d p)
    = (Ok (directory_strings_from d p (List.length xs)), mkBytesIO d q).
Proof.
  induction xs as [| x t IH]; intros p; simpl.
  - now exists p.
  - unfold bind at 1. rewrite attempt_directory_string.
    destruct (IH (snd (directory_string_at d p))) as [q Hq].
    unfold bind. rewrite Hq. now exists q.
Qed.

Lemma directory_strings_entry_run (count : Z) (d : bytes) (p : N) :
  exists q,
    directory_strings_entry count (mkBytesIO d p)
    = (Ok (directory_strings_from d p (Z.to_nat count)), mkBytesIO d q).
Proof.
  unfold directory_strings_entry.
  rewrite (for_each_ext (range count) _
             (fun acc _ => y <- attempt directory_string ;; ret (acc ++ [y])))
    by (intros; apply attempt_append).
  rewrite for_each_collect. unfold bind.
  destruct (collect_directory_strings (range count) d p) as [q Hq].
  rewrite Hq, range_length. now exists q.
Qed.

Lemma directory_strings_from_length (d : bytes) (n : nat) :
  forall p, List.length (directory_strings_from d p n) = n.
Proof. induction n as [| k IH]; intros p; simpl; [reflexivity | now rewrite IH]. Qed.

Lemma collect_directory_tables {datetime} (self : Prefetch datetime)
    (vs : list (VolumeInformation datetime)) (d : bytes) :
  (forall v, In v vs -> 0 <= SectionDOffset (file_info self) + SectionFOffset v) ->
  forall p, exists q,
    collect (fun v =>
               seek (SectionDOffset (file_info self) + SectionFOffset v) ;;;
               directory_strings_entry (SectionFStringsCount v))
            vs (mkBytesIO d p)
    = (Ok (List.map
             (fun v => directory_strings_from d
                         (Z.to_N (SectionDOffset (file_info self) + SectionFOffset v))
                         (Z.to_nat (SectionFStringsCount v)))
             vs),
       mkBytesIO d q).
Proof.
  induction vs as [| v t IH]; intros Hpos p; simpl.
  - now exists p.
  - destruct (directory_strings_entry_run (SectionFStringsCount v) d
                (Z.to_N (SectionDOffset (file_info self) + SectionFOffset v)))
      as [q1 Hq1].
    destruct (IH (fun v' H => Hpos v' (or_intror H)) q1) as [q Hq].
    exists q.
    erewrite bind_ok.
    2:{ erewrite bind_ok; [exact Hq1 |].
        apply seek_to. apply Hpos. now left. }
    erewrite bind_ok; [reflexivity | exact Hq].
Qed.

(** C7: the directory_strings decoder yields, for each VolumesInfo entry
    in order, the list of exactly SectionFStringsCount items read from
    SectionDOffset + SectionFOffset: each item is decoded from a 2-byte
    length field and the following length*2 + 2 bytes as UTF-16 with the
    null padding stripped, or is absent when that fails, and the decoding
    goes on with the next string and the next volume either way. *)
Theorem directory_strings_per_volume {datetime} (lib : Collaborators datetime)
    (self : Prefetch datetime) (s : BytesIO) :
  (forall v, In v (volumes_info self) ->
             0 <= SectionDOffset (file_info self) + SectionFOffset v) ->
  _parse_directory_strings lib self s
  = (Ok (_clean_value lib
           (List.map
              (fun v => directory_strings_from (getvalue s)
                          (Z.to_N (SectionDOffset (file_info self) + SectionFOffset v))
                          (Z.to_nat (SectionFStringsCount v)))
              (volumes_info self))),
     s)
  /\ (forall (v : VolumeInformation datetime) p,
        List.length (directory_strings_from (getvalue s) p
                                 (Z.to_nat (SectionFStringsCount v)))
                  = Z.to_nat (SectionFStringsCount v)).
Proof.
  intros Hpos. split; [| intros; apply directory_strings_from_length].
  unfold _parse_directory_strings.
  rewrite finally_restores
    by (keeps; unfold directory_strings_entry, directory_string; keeps).
  f_equal.
  unfold bind at 1.
  rewrite (for_each_ext (volumes_info self) _
             (fun acc v =>
                y <- (seek (SectionDOffset (file_info self) + SectionFOffset v) ;;;
                      directory_strings_entry (SectionFStringsCount v)) ;;
                ret (acc ++ [y]))).
  2:{ intros acc v s0. unfold bind.
      destruct (seek _ s0) as [[z | e] s1]; [| reflexivity].
      now destruct (directory_strings_entry _ s1) as [[y | e] s2]. }
  rewrite for_each_collect. unfold bind at 1.
  destruct s as [d p]. cbn [getvalue].
  destruct (collect_directory_tables self (volumes_info self) d Hpos p) as [q Hq].
  now rewrite Hq.
Qed.

Lemma directory_strings_per_volume_witness :
  (forall v,
      In v [Fixture.volume 0 0 0 0 3; Fixture.volume 0 0 0 20 1] ->
      0 <= 0 + SectionFOffset v)
  /\ _parse_directory_strings Fixture.lib
       (Fixture.parser "TEN" (Fixture.offsets 0 0 0 0 0 2) []
          [Fixture.volume 0 0 0 0 3; Fixture.volume 0 0 0 20 1])
       (mkBytesIO Fixture.directory_data 7%N)
     = (Ok [[Some (str_of_string "ab"); None; Some (str_of_string "c")];
            [Some (str_of_string "d")]],
        mkBytesIO Fixture.directory_data 7%N).
Proof.
  assert (forall v,
             In v [Fixture.volume 0 0 0 0 3; Fixture.volume 0 0 0 20 1] ->
             0 <= 0 + SectionFOffset v) as Hpos.
  { intros v [<- | [<- | []]]; vm_compute; discriminate. }
  split; [exact Hpos |].
  destruct (directory_strings_per_volume Fixture.lib
              (Fixture.parser "TEN" (Fixture.offsets 0 0 0 0 0 2) []
                 [Fixture.volume 0 0 0 0 3; Fixture.volume 0 0 0 20 1])
              (mkBytesIO Fixture.directory_data 7%N) Hpos) as [E _].
  rewrite E. vm_compute. reflexivity.
Defined.

(** ** Arrays of fixed records: file metrics and volumes info *)

Lemma fixed_array_ok {A} (offset count : Z) (m : IO A) (clean : list A -> list A)
    (s : BytesIO) (l : list A) (s' : BytesIO) :
  keeps_buffer m -> 0 <= offset ->
  runs m (Z.to_nat count) (mkBytesIO (getvalue s) (Z.to_N offset)) l s' ->
  fixed_array offset count m clean s = (Ok (clean l), s).
Proof.
  intros K Hoff R. unfold fixed_array.
  rewrite finally_restores by keeps.
  f_equal.
  erewrite bind_ok; [| now apply seek_to].
  erewrite bind_ok; [reflexivity |].
  rewrite for_each_collect.
  erewrite bind_ok; [reflexivity |].
  apply collect_runs_ok. rewrite range_length. exact R.
Qed.

Lemma fixed_array_fail {A} (offset count : Z) (m : IO A) (clean : list A -> list A)
    (s : BytesIO) (n : nat) (l : list A) (s' : BytesIO) (e : exn) (s'' : BytesIO) :
  keeps_buffer m -> 0 <= offset -> (n < Z.to_nat count)%nat ->
  runs m n (mkBytesIO (getvalue s) (Z.to_N offset)) l s' ->
  m s' = (Raise e, s'') ->
  fixed_array offset count m clean s = (Raise e, s).
Proof.
  intros K Hoff Hn R F. unfold fixed_array.
  rewrite finally_restores by keeps.
  f_equal.
  erewrite bind_ok; [| now apply seek_to].
  erewrite bind_raise; [reflexivity |].
  rewrite for_each_collect.
  erewrite bind_raise; [reflexivity |].
  eapply collect_runs_fail; eauto. now rewrite range_length.
Qed.

Lemma keeps_file_metrics_entry {datetime} (pf : pfstructs datetime)
    (lib : Collaborators datetime) (self : Prefetch datetime) :
  keeps_buffer (file_metrics_entry pf lib self).
Proof. unfold file_metrics_entry. keeps. Qed.

Lemma keeps_volumes_info_entry {datetime} (pf : pfstructs datetime)
    (lib : Collaborators datetime) (self : Prefetch datetime) :
  keeps_buffer (volumes_info_entry pf lib self).
Proof. unfold volumes_info_entry. keeps. Qed.

(** C2, as stated, fails: with two records declared and room for one and
    a half, record 0 decodes but the decoder returns no list at all. *)
Lemma file_metrics_short_read_aborts :
  fst (file_metrics_entry Fixture.layout Fixture.lib
         (Fixture.parser "XP" (Fixture.offsets 4 2 0 0 0 0) [] [])
         (mkBytesIO Fixture.metrics_data 4%N))
  = Ok (mkFileMetricsEntry
          [("StartTime", 1); ("Duration", 2); ("FileNameOffset", 3)]%string None)
  /\ _parse_file_metrics Fixture.layout Fixture.lib
       (Fixture.parser "XP" (Fixture.offsets 4 2 0 0 0 0) [] [])
       (mkBytesIO Fixture.metrics_data 0%N)
     = (Raise StreamError, mkBytesIO Fixture.metrics_data 0%N).
Proof. split; vm_compute; reflexivity. Qed.

(** C2, amended: the file_metrics decoder decodes exactly
    SectionAEntriesCount records, one after the other from SectionAOffset,
    and returns them when every record decodes; a failure while decoding
    record N is not confined to that record: it is raised out of the
    decoder, which returns no list, and the cursor is back where it was. *)
Theorem file_metrics_all_or_nothing {datetime} (pf : pfstructs datetime)
    (lib : Collaborators datetime) (self : Prefetch datetime) (s : BytesIO) :
  0 <= SectionAOffset (file_info self) ->
  (forall l s',
      runs (file_metrics_entry pf lib self)
           (Z.to_nat (SectionAEntriesCount (file_info self)))
           (mkBytesIO (getvalue s) (Z.to_N (SectionAOffset (file_info self))))
           l s' ->
      _parse_file_metrics pf lib self s = (Ok (_clean_value lib l), s)
      /\ List.length l = Z.to_nat (SectionAEntriesCount (file_info self)))
  /\ (forall n l s' e q,
         (n < Z.to_nat (SectionAEntriesCount (file_info self)))%nat ->
         runs (file_metrics_entry pf lib self) n
              (mkBytesIO (getvalue s) (Z.to_N (SectionAOffset (file_info self))))
              l s' ->
         PrefetchFileMetricsEntry pf self (getvalue s') (position s') = (Raise e, q) ->
         _parse_file_metrics pf lib self s = (Raise e, s)).
Proof.
  intros Hoff.
  change (_parse_file_metrics pf lib self)
    with (fixed_array (SectionAOffset (file_info self))
            (SectionAEntriesCount (file_info self))
            (file_metrics_entry pf lib self)
            (@_clean_value _ lib (list FileMetricsEntry))).
  split.
  - intros l s' R. split; [| exact (runs_length R)].
    eapply fixed_array_ok; eauto using keeps_file_metrics_entry.
  - intros n l s' e q Hn R F.
    eapply fixed_array_fail with (s'' := mkBytesIO (getvalue s') q);
      eauto using keeps_file_metrics_entry.
    unfold file_metrics_entry, parse_stream.
    erewrite bind_raise; [reflexivity |]. now rewrite F.
Qed.

Lemma file_metrics_all_or_nothing_witness :
  0 <= 4
  /\ _parse_file_metrics Fixture.layout Fixture.lib
       (Fixture.parser "XP" (Fixture.offsets 4 1 0 0 0 0) [] [])
       (mkBytesIO Fixture.metrics_data 0%N)
     = (Ok [mkFileMetricsEntry
              [("StartTime", 1); ("Duration", 2); ("FileNameOffset", 3)]%string
              None],
        mkBytesIO Fixture.metrics_data 0%N)
  /\ _parse_file_metrics Fixture.layout Fixture.lib
       (Fixture.parser "XP" (Fixture.offsets 4 2 0 0 0 0) [] [])
       (mkBytesIO Fixture.metrics_data 0%N)
     = (Raise StreamError, mkBytesIO Fixture.metrics_data 0%N).
Proof.
  split; [lia |]. split.
  - refine (proj1 (proj1 (file_metrics_all_or_nothing Fixture.layout Fixture.lib
                            (Fixture.parser "XP" (Fixture.offsets 4 1 0 0 0 0) [] [])
                            (mkBytesIO Fixture.metrics_data 0%N) _) _ _ _)).
    + simpl. lia.
    + eapply runs_S; [reflexivity | apply runs_O].
  - refine (proj2 (file_metrics_all_or_nothing Fixture.layout Fixture.lib
                     (Fixture.parser "XP" (Fixture.offsets 4 2 0 0 0 0) [] [])
                     (mkBytesIO Fixture.metrics_data 0%N) _)
                  1%nat _ _ StreamError 21%N _ _ _).
    + simpl. lia.
    + simpl. lia.
    + eapply runs_S; [reflexivity | apply runs_O].
    + reflexivity.
Defined.

(** One turn of the volumes_info loop, once the fixed record is parsed
    and its timestamp decoded. *)
Lemma volumes_info_entry_run {datetime} (pf : pfstructs datetime)
    (lib : Collaborators datetime) (self : Prefetch datetime)
    (d : bytes) (p : N) (entry : VolumeInformation datetime) (p' : N)
    (created : datetime) :
  PrefetchVolumeInformation pf self d p = (Ok entry, p') ->
  parse_filetime lib (RawVolumeCreateTime entry) = Ok created ->
  0 <= SectionDOffset (file_info self) + VolumeDevicePathOffset entry ->
  volumes_info_entry pf lib self (mkBytesIO d p)
  = match parse (PaddedString (VolumeDevicePathLength entry))
                (replace Byte.eqb [x00] []
                   (bytes_read d
                      (Z.to_N (SectionDOffset (file_info self)
                               + VolumeDevicePathOffset entry))
                      (VolumeDevicePathLength entry * 2))) with
    | Ok path =>
        (Ok (set_VolumeDevicePath (set_VolumeCreateTime entry created) path),
         mkBytesIO d p')
    | Raise e =>
        (Raise e,
         mkBytesIO d
           (Z.to_N (SectionDOffset (file_info self) + VolumeDevicePathOffset entry)
            + N.of_nat
                (List.length
                   (bytes_read d
                      (Z.to_N (SectionDOffset (file_info self)
                               + VolumeDevicePathOffset entry))
                      (VolumeDevicePathLength entry * 2)))))
    end.
Proof.
  intros Hparse Htime Hseek. unfold volumes_info_entry.
  erewrite bind_ok; [| unfold parse_stream; cbn [getvalue position];
                       rewrite Hparse; reflexivity].
  erewrite bind_ok; [| reflexivity].
  erewrite bind_ok; [| unfold lift; rewrite Htime; reflexivity].
  erewrite bind_ok; [| now apply seek_to].
  erewrite bind_ok; [| reflexivity].
  cbn [getvalue position].
  fold (slice d (Z.to_N (SectionDOffset (file_info self)
                         + VolumeDevicePathOffset entry))
              (VolumeDevicePathLength entry * 2)).
  fold (bytes_read d (Z.to_N (SectionDOffset (file_info self)
                              + VolumeDevicePathOffset entry))
                   (VolumeDevicePathLength entry * 2)).
  destruct (parse _ _) as [path | e] eqn:E.
  - erewrite bind_ok; [| unfold lift; reflexivity].
    erewrite bind_ok; [| cbn [position]; apply seek_back].
    reflexivity.
  - reflexivity.
Qed.

(** *** Device paths of non-null ASCII text *)

Lemma byte_of_to_N (c : N) :
  (c < 256)%N -> Byte.to_N (Fixture.byte_of (Z.of_N c)) = c.
Proof.
  intros H. unfold Fixture.byte_of.
  rewrite Z.mod_small by lia. rewrite N2Z.id.
  destruct (Byte.of_N c) as [b |] eqn:E.
  - now apply Byte.to_of_N.
  - apply Byte.of_N_None_iff in E. lia.
Qed.

Lemma eqb_x00_false (b : byte) : Byte.to_N b <> 0%N -> Byte.eqb x00 b = false.
Proof.
  intros H. destruct (Byte.eqb x00 b) eqn:E; [| reflexivity].
  apply Byte.byte_dec_bl in E. subst b. now elim H.
Qed.

Lemma eqb_sym_x00 (b : byte) : Byte.eqb b x00 = Byte.eqb x00 b.
Proof. now destruct b. Qed.

Lemma replace_nulls_utf16le (text : str) :
  ascii_text text ->
  replace Byte.eqb [x00] [] (utf16le_of text) = ascii_bytes text.
Proof.
  unfold replace, ascii_text.
  induction 1 as [| c t Hc Ht IH]; [reflexivity |].
  cbn [utf16le_of flat_map app ascii_bytes List.map replace_from startswith].
  rewrite eqb_x00_false by (rewrite byte_of_to_N; lia).
  cbn [andb]. cbn [Byte.eqb]. cbn [List.length Nat.sub app].
  f_equal. exact IH.
Qed.

Lemma decode_utf8_ascii (text : str) :
  ascii_text text -> decode_utf8 (ascii_bytes text) = Ok text.
Proof.
  induction 1 as [| c t Hc Ht IH]; [reflexivity |].
  cbn [ascii_bytes List.map decode_utf8].
  rewrite byte_of_to_N by lia.
  destruct (c <? 128)%N eqn:E; [| apply N.ltb_ge in E; lia].
  fold (ascii_bytes t). now rewrite IH.
Qed.

Lemma lstrip_head_kept (b : byte) (bs : bytes) :
  Byte.to_N b <> 0%N -> lstrip Byte.eqb x00 (b :: bs) = b :: bs.
Proof.
  intros H. cbn [lstrip]. now rewrite eqb_sym_x00, eqb_x00_false.
Qed.

Lemma rstrip_ascii (text : str) :
  ascii_text text -> rstrip Byte.eqb x00 (ascii_bytes text) = ascii_bytes text.
Proof.
  intros H. unfold rstrip.
  destruct (rev (ascii_bytes text)) as [| b bs] eqn:E.
  - rewrite <- (rev_involutive (ascii_bytes text)), E. reflexivity.
  - rewrite lstrip_head_kept; [now rewrite <- E, rev_involutive |].
    assert (In b (ascii_bytes text)) as Hin
      by (apply in_rev; rewrite E; now left).
    unfold ascii_bytes in Hin. apply in_map_iff in Hin as [c [<- Hc]].
    unfold ascii_text in H. rewrite Forall_forall in H. specialize (H c Hc).
    rewrite byte_of_to_N; lia.
Qed.

Lemma padded_string_ascii (text : str) :
  ascii_text text ->
  parse (PaddedString (Z.of_nat (List.length text))) (ascii_bytes text) = Ok text.
Proof.
  intros H.
  unfold parse, PaddedString, construct_of, stream_read, bind, read, lift, ret, raise.
  destruct (Z.of_nat (List.length text) <? 0) eqn:E; [apply Z.ltb_lt in E; lia |].
  cbn [getvalue position N.to_nat skipn].
  rewrite Nat2Z.id.
  assert (List.length (ascii_bytes text) = List.length text) as Hlen
    by apply length_map.
  rewrite <- Hlen. rewrite firstn_all, Z.eqb_refl.
  cbn [fst]. rewrite rstrip_ascii by assumption.
  now apply decode_utf8_ascii.
Qed.

Lemma utf16_units_ascii (text : str) :
  ascii_text text -> utf16_units false (utf16le_of text) = Ok text.
Proof.
  induction 1 as [| c t Hc Ht IH]; [reflexivity |].
  cbn [utf16le_of flat_map app utf16_units].
  unfold code_unit. rewrite byte_of_to_N by lia.
  change (Byte.to_N x00) with 0%N. rewrite N.mul_0_r, N.add_0_r.
  unfold is_high_surrogate, is_low_surrogate.
  destruct (55296 <=? c)%N eqn:E1; [apply N.leb_le in E1; lia |].
  destruct (56320 <=? c)%N eqn:E2; [apply N.leb_le in E2; lia |].
  cbn [andb]. fold (utf16le_of t). now rewrite IH.
Qed.

Lemma decode_utf16_ascii (text : str) :
  ascii_text text -> decode_utf16 (utf16le_of text) = Ok text.
Proof.
  intros H. destruct H as [| c t Hc Ht]; [reflexivity |].
  pose proof (utf16_units_ascii (Forall_cons c Hc Ht)) as U.
  cbn [utf16le_of flat_map app] in *. unfold decode_utf16.
  unfold code_unit at 1 2. rewrite byte_of_to_N by lia.
  change (Byte.to_N x00) with 0%N. rewrite N.mul_0_r, N.add_0_r.
  destruct (c =? 65279)%N eqn:E1; [apply N.eqb_eq in E1; lia |].
  destruct (c =? 65534)%N eqn:E2; [apply N.eqb_eq in E2; lia |].
  exact U.
Qed.

Lemma filter_nonnull_ascii (text : str) :
  ascii_text text -> List.filter (fun c => negb (c =? 0)%N) text = text.
Proof.
  induction 1 as [| c t Hc Ht IH]; [reflexivity |].
  cbn [List.filter].
  destruct (c =? 0)%N eqn:E; [apply N.eqb_eq in E; lia |].
  cbn [negb]. now rewrite IH.
Qed.

(** ** Volumes info *)

(** C3, as stated, fails: the device path of entry 0 is not valid text,
    entry 1 on its own decodes, and the decoder returns no list. *)
Lemma device_path_failure_is_not_confined :
  rmap (@VolumeDevicePath Fixture.datetime)
    (fst (volumes_info_entry Fixture.layout Fixture.lib
            (Fixture.parser "TEN" (Fixture.offsets 0 0 0 0 0 2) [] [])
            (mkBytesIO (Fixture.volumes_data [xe9; x00] (Fixture.utf16le "C:") 1 2)
                       28%N)))
  = Ok (Some (str_of_string "C:"))
  /\ _parse_volumes_info Fixture.layout Fixture.lib
       (Fixture.parser "TEN" (Fixture.offsets 0 0 0 0 0 2) [] [])
       (mkBytesIO (Fixture.volumes_data [xe9; x00] (Fixture.utf16le "C:") 1 2) 0%N)
     = (Raise UnicodeDecodeError,
        mkBytesIO (Fixture.volumes_data [xe9; x00] (Fixture.utf16le "C:") 1 2) 0%N).
Proof. split; vm_compute; reflexivity. Qed.

(** C3, amended: in the volumes_info decoder a failure decoding one
    entry's device path is not caught for that entry: it is raised out of
    the decoder, which returns no list (the entries decoded before it are
    dropped, the entries after it are not decoded), and the cursor is
    back where it was before the call. *)
Theorem device_path_failure_aborts {datetime} (pf : pfstructs datetime)
    (lib : Collaborators datetime) (self : Prefetch datetime) (s : BytesIO)
    (n : nat) (l : list (VolumeInformation datetime)) (s' : BytesIO)
    (entry : VolumeInformation datetime) (p' : N) (created : datetime) (e : exn) :
  0 <= SectionDOffset (file_info self) ->
  (n < Z.to_nat (SectionDEntriesCount (file_info self)))%nat ->
  runs (volumes_info_entry pf lib self) n
       (mkBytesIO (getvalue s) (Z.to_N (SectionDOffset (file_info self)))) l s' ->
  PrefetchVolumeInformation pf self (getvalue s) (position s') = (Ok entry, p') ->
  parse_filetime lib (RawVolumeCreateTime entry) = Ok created ->
  0 <= SectionDOffset (file_info self) + VolumeDevicePathOffset entry ->
  parse (PaddedString (VolumeDevicePathLength entry))
        (replace Byte.eqb [x00] []
           (bytes_read (getvalue s)
              (Z.to_N (SectionDOffset (file_info self) + VolumeDevicePathOffset entry))
              (VolumeDevicePathLength entry * 2)))
  = Raise e ->
  _parse_volumes_info pf lib self s = (Raise e, s).
Proof.
  intros Hoff Hn R Hparse Htime Hseek Hpath.
  change (_parse_volumes_info pf lib self)
    with (fixed_array (SectionDOffset (file_info self))
            (SectionDEntriesCount (file_info self))
            (volumes_info_entry pf lib self)
            (@_clean_value _ lib (list (VolumeInformation datetime)))).
  pose proof (runs_keep (keeps_volumes_info_entry pf lib self) R) as Hbuf.
  cbn [getvalue] in Hbuf.
  eapply fixed_array_fail; eauto using keeps_volumes_info_entry.
  destruct s' as [d' q]. cbn [getvalue position] in *. subst d'.
  rewrite (volumes_info_entry_run pf lib self _ q Hparse Htime Hseek), Hpath.
  reflexivity.
Qed.

Lemma device_path_failure_aborts_witness :
  _parse_volumes_info Fixture.layout Fixture.lib
    (Fixture.parser "TEN" (Fixture.offsets 0 0 0 0 0 2) [] [])
    (mkBytesIO (Fixture.volumes_data (Fixture.utf16le "C:") [xe9; x00] 2 1) 0%N)
  = (Raise UnicodeDecodeError,
     mkBytesIO (Fixture.volumes_data (Fixture.utf16le "C:") [xe9; x00] 2 1) 0%N).
Proof.
  eapply (@device_path_failure_aborts _ Fixture.layout Fixture.lib
            (Fixture.parser "TEN" (Fixture.offsets 0 0 0 0 0 2) [] [])
            (mkBytesIO (Fixture.volumes_data (Fixture.utf16le "C:") [xe9; x00] 2 1)
                       0%N)
            1%nat
            [mkVolumeInformation 56 2 10 0 0 0 (Some (-11644473599999999))
               (Some (str_of_string "C:"))]
            (mkBytesIO (Fixture.volumes_data (Fixture.utf16le "C:") [xe9; x00] 2 1)
                       28%N)
            (mkVolumeInformation 60 1 20 0 0 0 None None)
            56%N (-11644473599999998) UnicodeDecodeError).
  - vm_compute. discriminate.
  - vm_compute. apply le_n.
  - apply runs_of_collect. vm_compute. reflexivity.
  - vm_compute. reflexivity.
  - vm_compute. reflexivity.
  - vm_compute. discriminate.
  - vm_compute. reflexivity.
Defined.

(** C9, as stated, fails: for the one-unit run 41 01 (U+0141) the decoder
    yields the text "A", where the UTF-16 text of the run is U+0141. *)
Lemma device_path_is_not_the_utf16_text :
  rmap (@VolumeDevicePath Fixture.datetime)
    (fst (volumes_info_entry Fixture.layout Fixture.lib
            (Fixture.parser "TEN" (Fixture.offsets 0 0 0 0 0 2) [] [])
            (mkBytesIO (Fixture.volumes_data (Fixture.utf16le "C:") [x41; x01] 2 1)
                       28%N)))
  = Ok (Some (str_of_string "A"))
  /\ rmap (device_path_as_stated
             (Fixture.volumes_data (Fixture.utf16le "C:") [x41; x01] 2 1) 0)
       (fst (PrefetchVolumeInformation Fixture.layout
               (Fixture.parser "TEN" (Fixture.offsets 0 0 0 0 0 2) [] [])
               (Fixture.volumes_data (Fixture.utf16le "C:") [x41; x01] 2 1) 28%N))
     = Ok (Ok [321%N]).
Proof. split; vm_compute; reflexivity. Qed.

(** C9, amended: for each VolumesInfo entry the decoder sets
    VolumeCreateTime to the Windows-timestamp decoding of the raw tick
    value, seeks to SectionDOffset + VolumeDevicePathOffset, reads twice
    VolumeDevicePathLength bytes, removes every zero byte and decodes the
    first VolumeDevicePathLength remaining bytes as UTF-8, and puts the
    cursor back immediately after the fixed record before the next entry.
    A declared length of zero yields the empty string, not an error; for a
    run of VolumeDevicePathLength non-null ASCII characters the result is
    the UTF-16 text of the run. *)
Theorem volumes_info_entry_decodes {datetime} (pf : pfstructs datetime)
    (lib : Collaborators datetime) (self : Prefetch datetime)
    (d : bytes) (p : N) (entry : VolumeInformation datetime) (p' : N)
    (created : datetime) :
  PrefetchVolumeInformation pf self d p = (Ok entry, p') ->
  parse_filetime lib (RawVolumeCreateTime entry) = Ok created ->
  0 <= SectionDOffset (file_info self) + VolumeDevicePathOffset entry ->
  let run :=
    bytes_read d
      (Z.to_N (SectionDOffset (file_info self) + VolumeDevicePathOffset entry))
      (VolumeDevicePathLength entry * 2) in
  (forall path,
      parse (PaddedString (VolumeDevicePathLength entry))
            (replace Byte.eqb [x00] [] run) = Ok path ->
      volumes_info_entry pf lib self (mkBytesIO d p)
      = (Ok (set_VolumeDevicePath (set_VolumeCreateTime entry created) path),
         mkBytesIO d p'))
  /\ (VolumeDevicePathLength entry = 0 ->
      volumes_info_entry pf lib self (mkBytesIO d p)
      = (Ok (set_VolumeDevicePath (set_VolumeCreateTime entry created) []),
         mkBytesIO d p'))
  /\ (forall text,
         ascii_text text ->
         Z.of_nat (List.length text) = VolumeDevicePathLength entry ->
         run = utf16le_of text ->
         volumes_info_entry pf lib self (mkBytesIO d p)
         = (Ok (set_VolumeDevicePath (set_VolumeCreateTime entry created) text),
            mkBytesIO d p')
         /\ device_path_as_stated d (SectionDOffset (file_info self)) entry
            = Ok text).
Proof.
  intros Hparse Htime Hseek run.
  pose proof (volumes_info_entry_run pf lib self d p Hparse Htime Hseek) as Hrun.
  fold run in Hrun.
  assert (forall path,
             parse (PaddedString (VolumeDevicePathLength entry))
                   (replace Byte.eqb [x00] [] run) = Ok path ->
             volumes_info_entry pf lib self (mkBytesIO d p)
             = (Ok (set_VolumeDevicePath (set_VolumeCreateTime entry created) path),
                mkBytesIO d p')) as Hok.
  { intros path Hpath. now rewrite Hrun, Hpath. }
  split; [exact Hok |]. split.
  - intros Hzero. apply Hok. subst run. rewrite Hzero. reflexivity.
  - intros text Hascii Hlen Htext. split.
    + apply Hok. rewrite Htext, replace_nulls_utf16le by assumption.
      rewrite <- Hlen. now apply padded_string_ascii.
    + unfold device_path_as_stated.
      assert (slice d (Z.to_N (SectionDOffset (file_info self)
                               + VolumeDevicePathOffset entry))
                    (VolumeDevicePathLength entry * 2) = run) as ->.
      { subst run. unfold bytes_read.
        destruct (VolumeDevicePathLength entry * 2 <? 0) eqn:E;
          [apply Z.ltb_lt in E; lia | reflexivity]. }
      rewrite Htext, decode_utf16_ascii by assumption.
      cbn [rmap]. now rewrite filter_nonnull_ascii.
Qed.

Lemma volumes_info_entry_decodes_witness :
  volumes_info_entry Fixture.layout Fixture.lib
    (Fixture.parser "TEN" (Fixture.offsets 0 0 0 0 0 2) [] [])
    (mkBytesIO (Fixture.volumes_data (Fixture.utf16le "C:") [] 2 0) 0%N)
  = (Ok (mkVolumeInformation 56 2 10 0 0 0 (Some (-11644473599999999))
           (Some (str_of_string "C:"))),
     mkBytesIO (Fixture.volumes_data (Fixture.utf16le "C:") [] 2 0) 28%N)
  /\ volumes_info_entry Fixture.layout Fixture.lib
       (Fixture.parser "TEN" (Fixture.offsets 0 0 0 0 0 2) [] [])
       (mkBytesIO (Fixture.volumes_data (Fixture.utf16le "C:") [] 2 0) 28%N)
     = (Ok (mkVolumeInformation 60 0 20 0 0 0 (Some (-11644473599999998))
              (Some [])),
        mkBytesIO (Fixture.volumes_data (Fixture.utf16le "C:") [] 2 0) 56%N).
Proof.
  split.
  - refine (proj1 (proj2 (proj2
      (@volumes_info_entry_decodes _ Fixture.layout Fixture.lib
         (Fixture.parser "TEN" (Fixture.offsets 0 0 0 0 0 2) [] [])
         (Fixture.volumes_data (Fixture.utf16le "C:") [] 2 0) 0%N
         (mkVolumeInformation 56 2 10 0 0 0 None None)
         28%N (-11644473599999999) _ _ _))
      (str_of_string "C:") _ _ _)).
    + vm_compute. reflexivity.
    + vm_compute. reflexivity.
    + vm_compute. discriminate.
    + repeat constructor.
    + vm_compute. reflexivity.
    + vm_compute. reflexivity.
  - refine (proj1 (proj2
      (@volumes_info_entry_decodes _ Fixture.layout Fixture.lib
         (Fixture.parser "TEN" (Fixture.offsets 0 0 0 0 0 2) [] [])
         (Fixture.volumes_data (Fixture.utf16le "C:") [] 2 0) 28%N
         (mkVolumeInformation 60 0 20 0 0 0 None None)
         56%N (-11644473599999998) _ _ _)) _).
    + vm_compute. reflexivity.
    + vm_compute. reflexivity.
    + vm_compute. discriminate.
    + vm_compute. reflexivity.
Defined.

(** ** The header: executable name and hash *)

Lemma split_first (s : str) :
  exists name ws rest,
    split N.eqb 0%N s = name :: ws
    /\ s = name ++ rest
    /\ ~ In 0%N name
    /\ (rest = [] \/ exists r, rest = 0%N :: r).
Proof.
  induction s as [| c t IH].
  - exists [], [], []. simpl. intuition.
  - cbn [split]. destruct (c =? 0)%N eqn:E.
    + apply N.eqb_eq in E. subst c.
      exists [], (split N.eqb 0%N t), (0%N :: t). simpl. intuition eauto.
    + apply N.eqb_neq in E.
      destruct IH as (name & ws & rest & Hs & Ht & Hin & Hrest).
      rewrite Hs. exists (c :: name), ws, rest.
      repeat split; [simpl; congruence | | exact Hrest].
      simpl. intros [H | H]; [congruence | contradiction].
Qed.

Lemma hex_value_snoc (s : str) (c : N) :
  hex_value (s ++ [c]) = hex_value s * 16 + hex_digit_value c.
Proof. unfold hex_value. now rewrite fold_left_app. Qed.

Lemma upper_hex_digit (d : N) :
  (d < 16)%N ->
  is_upper_hex (upper_char (hex_digit d)) = true
  /\ hex_digit_value (upper_char (hex_digit d)) = Z.of_N d
  /\ hex_digit d <> 120%N.
Proof.
  intros H.
  assert (d = 0 \/ d = 1 \/ d = 2 \/ d = 3 \/ d = 4 \/ d = 5 \/ d = 6 \/ d = 7
          \/ d = 8 \/ d = 9 \/ d = 10 \/ d = 11 \/ d = 12 \/ d = 13 \/ d = 14
          \/ d = 15)%N as Hd by lia.
  repeat (destruct Hd as [-> | Hd]; [vm_compute; repeat split; discriminate |]).
  subst d. vm_compute. repeat split; discriminate.
Qed.

Lemma hex_digits_value (fuel : nat) :
  forall n,
    fuel <> O ->
    (n < 16 ^ N.of_nat fuel)%N ->
    hex_value (upper (hex_digits fuel n)) = Z.of_N n
    /\ forallb is_upper_hex (upper (hex_digits fuel n)) = true
    /\ ~ In 120%N (hex_digits fuel n)
    /\ hex_digits fuel n <> [].
Proof.
  induction fuel as [| f IH]; intros n Hfuel Hn; [congruence |].
  cbn [hex_digits]. destruct (n <? 16)%N eqn:E.
  - apply N.ltb_lt in E. destruct (upper_hex_digit E) as (H1 & H2 & H3).
    unfold upper, hex_value. cbn [List.map fold_left forallb].
    rewrite H1, H2. repeat split; [| discriminate].
    simpl. intros [H | []]. now apply H3.
  - apply N.ltb_ge in E.
    assert (f <> O) as Hf.
    { intros ->. change (16 ^ N.of_nat 1)%N with 16%N in Hn. lia. }
    assert (n / 16 < 16 ^ N.of_nat f)%N as Hq.
    { apply N.Div0.div_lt_upper_bound.
      rewrite Nat2N.inj_succ, N.pow_succ_r' in Hn. exact Hn. }
    destruct (IH _ Hf Hq) as (V & F & X & _).
    assert (n mod 16 < 16)%N as Hr by (apply N.mod_lt; discriminate).
    destruct (upper_hex_digit Hr) as (H1 & H2 & H3).
    unfold upper. rewrite map_app. fold (upper (hex_digits f (n / 16))).
    cbn [List.map]. rewrite hex_value_snoc, V, H2, forallb_app, F.
    cbn [forallb]. rewrite H1.
    repeat split.
    + pose proof (N.div_mod n 16). lia.
    + rewrite in_app_iff. simpl. intros [H | [H | []]]; [now apply X |].
      now apply H3.
    + now destruct (hex_digits f (n / 16)).
Qed.

Lemma hex_fuel (m : N) : (m < 16 ^ N.of_nat (S (N.to_nat (N.log2 m))))%N.
Proof.
  rewrite Nat2N.inj_succ, N2Nat.id.
  destruct (N.eq_dec m 0) as [-> | Hm]; [reflexivity |].
  assert (0 < m)%N as Hpos by lia.
  destruct (N.log2_spec m Hpos) as [_ Hlt].
  eapply N.lt_le_trans; [exact Hlt |].
  apply N.pow_le_mono_l. lia.
Qed.

Lemma replace_0x_absent (s : str) :
  ~ In 120%N s -> replace_from N.eqb [48%N; 120%N] [] 0 s = s.
Proof.
  induction s as [| c t IH]; intros Hx; [reflexivity |].
  cbn [replace_from startswith].
  destruct t as [| b t'].
  - rewrite andb_false_r. reflexivity.
  - destruct (120 =? b)%N eqn:E.
    + apply N.eqb_eq in E. subst b. elim Hx. simpl. auto.
    + cbn [andb]. rewrite andb_false_r. f_equal. apply IH.
      intros H. apply Hx. now right.
Qed.

Lemma hash_text (n : Z) :
  0 <= n ->
  upper (replace N.eqb (str_of_string "0x") [] (hex n))
  = upper (hex_digits (S (N.to_nat (N.log2 (Z.to_N n)))) (Z.to_N n)).
Proof.
  intros Hn. unfold hex.
  destruct (n <? 0) eqn:E; [apply Z.ltb_lt in E; lia |].
  rewrite Z.abs_eq by assumption.
  destruct (hex_digits_value (@Nat.neq_succ_0 _) (hex_fuel (Z.to_N n))) as (_ & _ & X & _).
  change (str_of_string "0x") with [48%N; 120%N].
  unfold replace. cbn [app replace_from startswith].
  rewrite !N.eqb_refl. cbn [andb List.length Nat.sub app].
  now rewrite replace_0x_absent.
Qed.

(** C6: in the decoded header, ExecutableName is the part of the raw
    name field before its first null character, and PrefetchHash is the
    raw hash as an uppercase hexadecimal numeral without the 0x prefix;
    the raw hash 0x1A2B3C yields exactly "1A2B3C". *)
Theorem header_name_and_hash {datetime} (pf : pfstructs datetime)
    (lib : Collaborators datetime) (s : BytesIO) (parsed : Header) (p' : N)
    (signature : str) :
  PrefetchHeader pf (getvalue s) (position s) = (Ok parsed, p') ->
  decode_utf8 (RawSignature parsed) = Ok signature ->
  0 <= RawPrefetchHash parsed ->
  exists decoded name rest hash,
    _parse_header pf lib s
    = (Ok (_clean_value lib decoded), mkBytesIO (getvalue s) p')
    /\ ExecutableName decoded = Some name
    /\ PrefetchHash decoded = Some hash
    /\ RawExecutableName parsed = name ++ rest
    /\ ~ In 0%N name
    /\ (rest = [] \/ exists r, rest = 0%N :: r)
    /\ hash <> []
    /\ forallb is_upper_hex hash = true
    /\ hex_value hash = RawPrefetchHash parsed
    /\ (RawPrefetchHash parsed = 1715004 -> hash = str_of_string "1A2B3C").
Proof.
  intros Hparse Hsig Hhash.
  destruct (split_first (RawExecutableName parsed))
    as (name & ws & rest & Hsplit & Hname & Hin & Hrest).
  set (hash := upper (replace N.eqb (str_of_string "0x") []
                        (hex (RawPrefetchHash parsed)))).
  exists (set_header_fields parsed signature name hash), name, rest, hash.
  split.
  { unfold _parse_header.
    erewrite bind_ok; [| unfold parse_stream; rewrite Hparse; reflexivity].
    erewrite bind_ok; [| unfold lift; rewrite Hsig; reflexivity].
    erewrite bind_ok;
      [| unfold lift, item; rewrite Hsplit; reflexivity].
    reflexivity. }
  repeat split; try assumption; try reflexivity.
  - subst hash. rewrite hash_text by assumption.
    destruct (hex_digits_value (@Nat.neq_succ_0 _)
                (hex_fuel (Z.to_N (RawPrefetchHash parsed))))
      as (_ & _ & _ & Hne).
    unfold upper. intros H. apply map_eq_nil in H. contradiction.
  - subst hash. rewrite hash_text by assumption.
    now destruct (hex_digits_value (@Nat.neq_succ_0 _)
                (hex_fuel (Z.to_N (RawPrefetchHash parsed))))
      as (_ & F & _).
  - subst hash. rewrite hash_text by assumption.
    destruct (hex_digits_value (@Nat.neq_succ_0 _)
                (hex_fuel (Z.to_N (RawPrefetchHash parsed))))
      as (V & _).
    rewrite V. lia.
  - intros H. subst hash. rewrite H. vm_compute. reflexivity.
Qed.

Example header_of_calc :
  _parse_header Fixture.layout Fixture.lib
    (mkBytesIO (Fixture.header_bytes 30 1715004 "CALC.EXE") 0%N)
  = (Ok (mkHeader (TagStr "TEN") [x53; x43; x43; x41]
           (str_of_string "CALC.EXE" ++ List.repeat 0%N 22) 1715004
           (Some (str_of_string "SCCA")) (Some (str_of_string "CALC.EXE"))
           (Some (str_of_string "1A2B3C"))),
     mkBytesIO (Fixture.header_bytes 30 1715004 "CALC.EXE") 84%N).
Proof. vm_compute. reflexivity. Qed.

Lemma header_name_and_hash_witness :
  exists decoded,
    _parse_header Fixture.layout Fixture.lib
      (mkBytesIO (Fixture.header_bytes 30 1715004 "CALC.EXE") 0%N)
    = (Ok decoded, mkBytesIO (Fixture.header_bytes 30 1715004 "CALC.EXE") 84%N)
    /\ PrefetchHash decoded = Some (str_of_string "1A2B3C").
Proof.
  destruct (@header_name_and_hash _ Fixture.layout Fixture.lib
              (mkBytesIO (Fixture.header_bytes 30 1715004 "CALC.EXE") 0%N)
              (mkHeader (TagStr "TEN") [x53; x43; x43; x41]
                 (str_of_string "CALC.EXE" ++ List.repeat 0%N 22) 1715004
                 None None None)
              84%N (str_of_string "SCCA"))
    as (decoded & name & rest & hash & Hrun & _ & Hhash & _ & _ & _ & _ & _ & _ & Hex).
  - vm_compute. reflexivity.
  - vm_compute. reflexivity.
  - vm_compute. discriminate.
  - exists decoded. split; [exact Hrun |].
    rewrite Hhash. f_equal. apply Hex. reflexivity.
Defined.

(** ** Opening the byte source *)




(** ** Filename strings *)

(** The guard of the filename_strings loop lets a turn decode when the
    running offset equals the declared length: with a table declared
    empty, the first string is decoded all the same. *)
Lemma filename_guard_admits_table_end {datetime} (pf : pfstructs datetime)
    (lib : Collaborators datetime) (self : Prefetch datetime) (s : BytesIO)
    (m : FileMetricsEntry) :
  file_metrics self = [m] ->
  SectionCLength (file_info self) = 0 ->
  0 <= SectionCOffset (file_info self) ->
  _parse_filename_strings pf lib self s
  = (rmap (fun name => _clean_value lib [Some name])
          (fst (PrefetchFileNameString pf (getvalue s)
                  (Z.to_N (SectionCOffset (file_info self))))),
     s).
Proof.
  intros Hm Hlen Hoff. unfold _parse_filename_strings.
  rewrite finally_restores by keeps.
  f_equal.
  erewrite bind_ok; [| now apply seek_to].
  rewrite Hm, Hlen. cbn [for_each].
  unfold bind, tell, parse_stream, ret. cbn [getvalue position].
  rewrite Z2N.id, Z.sub_diag by assumption. cbn [Z.leb Z.compare].
  now destruct (PrefetchFileNameString pf _ _) as [[name | e] q].
Qed.

(** C1 against the code: the table at offset 0 is declared 4 bytes long
    and holds exactly the string "A". With three metrics entries, the
    entry of index 1 is not absent: it is decoded from the bytes that
    follow the table; only the entry of index 2 is absent. *)
Theorem filename_strings_read_past_exhausted_table :
  _parse_filename_strings Fixture.layout Fixture.lib
    (Fixture.parser "TEN" (Fixture.offsets 0 0 0 4 0 0)
       [Fixture.a_metric; Fixture.a_metric; Fixture.a_metric] [])
    (mkBytesIO Fixture.filename_data 0%N)
  = (Ok [Some (str_of_string "A"); Some (str_of_string "B"); None],
     mkBytesIO Fixture.filename_data 0%N).
Proof. vm_compute. reflexivity. Qed.

(** ** Further properties of the decoders *)

(** *** Trace chains and whole arrays *)

(** X1: the trace_chains decoder decodes exactly SectionBEntriesCount
    records one after the other from SectionBOffset and returns them when
    all decode; when record N fails the error is raised out of the decoder
    and no list is returned. Either way the stream is left as it was. *)
Theorem trace_chains_all_or_nothing {datetime} (pf : pfstructs datetime)
    (lib : Collaborators datetime) (self : Prefetch datetime) (s : BytesIO) :
  0 <= SectionBOffset (file_info self) ->
  (forall l s',
      runs (parse_stream (PrefetchTraceChainEntry pf))
           (Z.to_nat (SectionBEntriesCount (file_info self)))
           (mkBytesIO (getvalue s) (Z.to_N (SectionBOffset (file_info self))))
           l s' ->
      _parse_trace_chains pf lib self s = (Ok (_clean_value lib l), s)
      /\ List.length l = Z.to_nat (SectionBEntriesCount (file_info self)))
  /\ (forall n l s' e q,
         (n < Z.to_nat (SectionBEntriesCount (file_info self)))%nat ->
         runs (parse_stream (PrefetchTraceChainEntry pf)) n
              (mkBytesIO (getvalue s) (Z.to_N (SectionBOffset (file_info self))))
              l s' ->
         PrefetchTraceChainEntry pf (getvalue s') (position s') = (Raise e, q) ->
         _parse_trace_chains pf lib self s = (Raise e, s)).
Proof.
  intros Hoff.
  change (_parse_trace_chains pf lib self)
    with (fixed_array (SectionBOffset (file_info self))
            (SectionBEntriesCount (file_info self))
            (parse_stream (PrefetchTraceChainEntry pf))
            (@_clean_value _ lib (list Container))).
  split.
  - intros l s' R. split; [| exact (runs_length R)].
    eapply fixed_array_ok; eauto using keeps_parse_stream.
  - intros n l s' e q Hn R F.
    eapply fixed_array_fail with (s'' := mkBytesIO (getvalue s') q);
      eauto using keeps_parse_stream.
    unfold parse_stream. now rewrite F.
Qed.

Lemma trace_chains_all_or_nothing_witness :
  _parse_trace_chains Fixture.layout Fixture.lib
    (Fixture.parser "TEN" (Fixture.trace_offsets 4 2) [] [])
    (mkBytesIO Fixture.trace_data 9%N)
  = (Ok [[("NextEntryIndex", 1); ("BlocksLoadedCount", 5)]%string;
         [("NextEntryIndex", 2); ("BlocksLoadedCount", 6)]%string],
     mkBytesIO Fixture.trace_data 9%N)
  /\ _parse_trace_chains Fixture.layout Fixture.lib
       (Fixture.parser "TEN" (Fixture.trace_offsets 4 3) [] [])
       (mkBytesIO Fixture.trace_data 9%N)
     = (Raise StreamError, mkBytesIO Fixture.trace_data 9%N).
Proof.
  split.
  - refine (proj1 (proj1
      (@trace_chains_all_or_nothing _ Fixture.layout Fixture.lib
         (Fixture.parser "TEN" (Fixture.trace_offsets 4 2) [] [])
         (mkBytesIO Fixture.trace_data 9%N) _)
      [[("NextEntryIndex", 1); ("BlocksLoadedCount", 5)]%string;
       [("NextEntryIndex", 2); ("BlocksLoadedCount", 6)]%string]
      (mkBytesIO Fixture.trace_data 20%N) _)).
    + vm_compute. discriminate.
    + apply runs_of_collect. vm_compute. reflexivity.
  - refine (proj2
      (@trace_chains_all_or_nothing _ Fixture.layout Fixture.lib
         (Fixture.parser "TEN" (Fixture.trace_offsets 4 3) [] [])
         (mkBytesIO Fixture.trace_data 9%N) _)
      2%nat
      [[("NextEntryIndex", 1); ("BlocksLoadedCount", 5)]%string;
       [("NextEntryIndex", 2); ("BlocksLoadedCount", 6)]%string]
      (mkBytesIO Fixture.trace_data 20%N) StreamError 23%N _ _ _).
    + vm_compute. discriminate.
    + vm_compute. apply le_n.
    + apply runs_of_collect. vm_compute. reflexivity.
    + vm_compute. reflexivity.
Defined.

(** X2: when SectionDEntriesCount consecutive turns of the volumes_info
    loop all succeed from SectionDOffset, the decoder returns exactly
    those entries, in order, and leaves the stream as it was. *)
Theorem volumes_info_all_entries {datetime} (pf : pfstructs datetime)
    (lib : Collaborators datetime) (self : Prefetch datetime) (s : BytesIO)
    (l : list (VolumeInformation datetime)) (s' : BytesIO) :
  0 <= SectionDOffset (file_info self) ->
  runs (volumes_info_entry pf lib self)
       (Z.to_nat (SectionDEntriesCount (file_info self)))
       (mkBytesIO (getvalue s) (Z.to_N (SectionDOffset (file_info self)))) l s' ->
  _parse_volumes_info pf lib self s = (Ok (_clean_value lib l), s)
  /\ List.length l = Z.to_nat (SectionDEntriesCount (file_info self)).
Proof.
  intros Hoff R. split; [| exact (runs_length R)].
  change (_parse_volumes_info pf lib self)
    with (fixed_array (SectionDOffset (file_info self))
            (SectionDEntriesCount (file_info self))
            (volumes_info_entry pf lib self)
            (@_clean_value _ lib (list (VolumeInformation datetime)))).
  eapply fixed_array_ok; eauto using keeps_volumes_info_entry.
Qed.

Lemma volumes_info_all_entries_witness :
  _parse_volumes_info Fixture.layout Fixture.lib
    (Fixture.parser "TEN" (Fixture.offsets 0 0 0 0 0 2) [] [])
    (mkBytesIO (Fixture.volumes_data (Fixture.utf16le "C:") (Fixture.utf16le "D:") 2 2)
               11%N)
  = (Ok [mkVolumeInformation 56 2 10 0 0 0 (Some (-11644473599999999))
           (Some (str_of_string "C:"));
         mkVolumeInformation 60 2 20 0 0 0 (Some (-11644473599999998))
           (Some (str_of_string "D:"))],
     mkBytesIO (Fixture.volumes_data (Fixture.utf16le "C:") (Fixture.utf16le "D:") 2 2)
               11%N).
Proof.
  refine (proj1
    (@volumes_info_all_entries _ Fixture.layout Fixture.lib
       (Fixture.parser "TEN" (Fixture.offsets 0 0 0 0 0 2) [] [])
       (mkBytesIO (Fixture.volumes_data (Fixture.utf16le "C:") (Fixture.utf16le "D:") 2 2)
                  11%N)
       [mkVolumeInformation 56 2 10 0 0 0 (Some (-11644473599999999))
          (Some (str_of_string "C:"));
        mkVolumeInformation 60 2 20 0 0 0 (Some (-11644473599999998))
          (Some (str_of_string "D:"))]
       (mkBytesIO (Fixture.volumes_data (Fixture.utf16le "C:") (Fixture.utf16le "D:") 2 2)
                  56%N) _ _)).
  - vm_compute. discriminate.
  - apply runs_of_collect. vm_compute. reflexivity.
Defined.

Lemma fixed_array_empty {A} (offset count : Z) (m : IO A)
    (clean : list A -> list A) (s : BytesIO) :
  0 <= offset -> count <= 0 ->
  fixed_array offset count m clean s = (Ok (clean []), s).
Proof.
  intros Hoff Hcount. unfold fixed_array, bind, tell, try_finally.
  cbn [getvalue position]. rewrite seek_to by assumption.
  unfold range. replace (Z.to_nat count) with O by lia.
  cbn [seq List.map for_each]. unfold ret. cbn [getvalue position].
  rewrite seek_back. now destruct s.
Qed.

(** X3: an entry count of zero (or less) makes the file_metrics,
    trace_chains and volumes_info decoders return the empty list: no
    record is parsed, whatever the construct would do at that offset. *)
Theorem empty_arrays {datetime} (pf : pfstructs datetime)
    (lib : Collaborators datetime) (self : Prefetch datetime) (s : BytesIO) :
  (0 <= SectionAOffset (file_info self) ->
   SectionAEntriesCount (file_info self) <= 0 ->
   _parse_file_metrics pf lib self s = (Ok (_clean_value lib []), s))
  /\ (0 <= SectionBOffset (file_info self) ->
      SectionBEntriesCount (file_info self) <= 0 ->
      _parse_trace_chains pf lib self s = (Ok (_clean_value lib []), s))
  /\ (0 <= SectionDOffset (file_info self) ->
      SectionDEntriesCount (file_info self) <= 0 ->
      _parse_volumes_info pf lib self s = (Ok (_clean_value lib []), s)).
Proof.
  repeat split; intros Hoff Hcount.
  - exact (fixed_array_empty (file_metrics_entry pf lib self)
             (@_clean_value _ lib (list FileMetricsEntry)) s Hoff Hcount).
  - exact (fixed_array_empty (parse_stream (PrefetchTraceChainEntry pf))
             (@_clean_value _ lib (list Container)) s Hoff Hcount).
  - exact (fixed_array_empty (volumes_info_entry pf lib self)
             (@_clean_value _ lib (list (VolumeInformation datetime))) s
             Hoff Hcount).
Qed.

Lemma empty_arrays_witness :
  _parse_file_metrics Fixture.layout Fixture.lib
    (Fixture.parser "XP" (Fixture.offsets 1000 0 0 0 0 0) [] [])
    (mkBytesIO Fixture.metrics_data 2%N)
  = (Ok [], mkBytesIO Fixture.metrics_data 2%N).
Proof.
  refine (proj1
    (@empty_arrays _ Fixture.layout Fixture.lib
       (Fixture.parser "XP" (Fixture.offsets 1000 0 0 0 0 0) [] [])
       (mkBytesIO Fixture.metrics_data 2%N)) _ _).
  - vm_compute. discriminate.
  - vm_compute. discriminate.
Defined.

(** *** File information *)

Lemma map_result_ok {A B} (f : A -> result B) (xs : list A) (ys : list B) :
  Forall2 (fun x y => f x = Ok y) xs ys -> map_result f xs = Ok ys.
Proof.
  induction 1 as [| x y xs ys Hx _ IH]; [reflexivity |].
  cbn [map_result]. now rewrite Hx, IH.
Qed.

Lemma map_result_raise {A B} (f : A -> result B) (before : list A) (x : A)
    (after : list A) (ys : list B) (e : exn) :
  Forall2 (fun x y => f x = Ok y) before ys -> f x = Raise e ->
  map_result f (before ++ x :: after) = Raise e.
Proof.
  intros H Hx. induction H as [| x0 y0 xs ys0 H0 _ IH]; cbn [app map_result].
  - now rewrite Hx.
  - now rewrite H0, IH.
Qed.

(** X4: once the file-information record is parsed, the file_info decoder
    sets LastExecutionTime to the decoded timestamps of
    RawLastExecutionTime, one for one and in the same order, and leaves
    the cursor after the record; the first raw value that does not decode
    makes the whole decoder raise that error. *)
Theorem file_info_execution_times {datetime} (pf : pfstructs datetime)
    (lib : Collaborators datetime) (self : Prefetch datetime)
    (d : bytes) (p : N) (info : FileInformation datetime) (p' : N) :
  PrefetchFileInformation pf self d p = (Ok info, p') ->
  (forall times,
      Forall2 (fun raw t => parse_filetime lib raw = Ok t)
              (RawLastExecutionTime info) times ->
      _parse_file_info pf lib self (mkBytesIO d p)
      = (Ok (_clean_value lib (set_LastExecutionTime info times)),
         mkBytesIO d p'))
  /\ (forall before raw after times e,
         RawLastExecutionTime info = before ++ raw :: after ->
         Forall2 (fun raw t => parse_filetime lib raw = Ok t) before times ->
         parse_filetime lib raw = Raise e ->
         _parse_file_info pf lib self (mkBytesIO d p) = (Raise e, mkBytesIO d p')).
Proof.
  intros Hparse. split.
  - intros times Htimes. unfold _parse_file_info.
    erewrite bind_ok;
      [| unfold parse_stream; cbn [getvalue position]; rewrite Hparse; reflexivity].
    erewrite bind_ok;
      [reflexivity | unfold lift; now rewrite (@map_result_ok _ _ _ _ _ Htimes)].
  - intros before raw after times e Hraw Hbefore Hfail. unfold _parse_file_info.
    erewrite bind_ok;
      [| unfold parse_stream; cbn [getvalue position]; rewrite Hparse; reflexivity].
    erewrite bind_raise; [reflexivity |].
    unfold lift. now rewrite Hraw, (@map_result_raise _ _ _ before raw after times e Hbefore Hfail).
Qed.

Lemma file_info_execution_times_witness :
  _parse_file_info Fixture.layout Fixture.lib
    (Fixture.parser "XP" (Fixture.offsets 0 0 0 0 0 0) [] [])
    (mkBytesIO (Fixture.le 4 1 ++ Fixture.le 4 2 ++ Fixture.le 4 3 ++ Fixture.le 4 4
                  ++ Fixture.le 4 5 ++ Fixture.le 4 6 ++ Fixture.le 4 7
                  ++ Fixture.le 4 8 ++ Fixture.le 8 116444736000000000) 0%N)
  = (Ok (mkFileInformation 1 2 3 4 5 6 7 8 [116444736000000000] (Some [0])),
     mkBytesIO (Fixture.le 4 1 ++ Fixture.le 4 2 ++ Fixture.le 4 3 ++ Fixture.le 4 4
                  ++ Fixture.le 4 5 ++ Fixture.le 4 6 ++ Fixture.le 4 7
                  ++ Fixture.le 4 8 ++ Fixture.le 8 116444736000000000) 40%N).
Proof.
  refine (proj1
    (@file_info_execution_times _ Fixture.layout Fixture.lib
       (Fixture.parser "XP" (Fixture.offsets 0 0 0 0 0 0) [] [])
       (Fixture.le 4 1 ++ Fixture.le 4 2 ++ Fixture.le 4 3 ++ Fixture.le 4 4
          ++ Fixture.le 4 5 ++ Fixture.le 4 6 ++ Fixture.le 4 7
          ++ Fixture.le 4 8 ++ Fixture.le 8 116444736000000000)
       0%N
       (mkFileInformation 1 2 3 4 5 6 7 8 [116444736000000000] None)
       40%N _)
    [0] _).
  - vm_compute. reflexivity.
  - repeat constructor.
Defined.

(** *** Opening a source that is not there *)

(** X5: when the source cannot be opened, create_stream raises the error
    of open (the probe opens the file outside its try) instead of falling
    back to decompression, and the parser object is unchanged. *)
Theorem create_stream_missing_source {datetime} (pf : pfstructs datetime)
    (lib : Collaborators datetime) (self : Prefetch datetime)
    (fs : FileSystem) (persist : bool) :
  fs (source self) = None ->
  __get_version pf self fs = Raise OSError
  /\ create_stream pf lib self fs persist = (Raise OSError, self).
Proof.
  intros Hfile.
  assert (__get_version pf self fs = Raise OSError) as Hv.
  { unfold __get_version, get_version_probe, open. now rewrite Hfile. }
  split; [exact Hv |]. unfold create_stream. now rewrite Hv.
Qed.

Lemma create_stream_missing_source_witness :
  create_stream Fixture.layout Fixture.lib
    (mkPrefetch "b.pf" None
       (mkHeader (TagStr "TEN") [] [] 0 None None None)
       (Fixture.offsets 0 0 0 0 0 0) [] [])
    (Fixture.disk ([x4d; x41; x4d; x04] ++ [x01])) true
  = (Raise OSError,
     mkPrefetch "b.pf" None
       (mkHeader (TagStr "TEN") [] [] 0 None None None)
       (Fixture.offsets 0 0 0 0 0 0) [] []).
Proof.
  refine (proj2
    (@create_stream_missing_source _ Fixture.layout Fixture.lib
       (mkPrefetch "b.pf" None
          (mkHeader (TagStr "TEN") [] [] 0 None None None)
          (Fixture.offsets 0 0 0 0 0 0) [] [])
       (Fixture.disk ([x4d; x41; x4d; x04] ++ [x01])) true _)).
  vm_compute. reflexivity.
Defined.

(** *** Filename strings: the shape of the result *)

Lemma filename_loop_past_table {datetime} (pf : pfstructs datetime)
    (self : Prefetch datetime) (ms : list FileMetricsEntry) (d : bytes) (p : N) :
  SectionCLength (file_info self) < Z.of_N p - SectionCOffset (file_info self) ->
  forall acc,
    for_each ms (filename_turn pf self) acc (mkBytesIO d p)
    = (Ok (acc ++ List.repeat None (List.length ms)), mkBytesIO d p).
Proof.
  intros Hpast. induction ms as [| m t IH]; intros acc; cbn [for_each].
  - unfold ret. now rewrite app_nil_r.
  - unfold bind at 1. unfold filename_turn at 1. unfold bind, tell.
    cbn [position].
    destruct (Z.of_N p - SectionCOffset (file_info self)
              <=? SectionCLength (file_info self)) eqn:E;
      [apply Z.leb_le in E; lia |].
    unfold ret at 1. rewrite IH. cbn [List.length List.repeat].
    now rewrite <- app_assoc.
Qed.

Lemma filename_loop_shape {datetime} (pf : pfstructs datetime)
    (self : Prefetch datetime) (ms : list FileMetricsEntry) (d : bytes) :
  forall acc p out s1,
    for_each ms (filename_turn pf self) acc (mkBytesIO d p) = (Ok out, s1) ->
    exists names k q,
      out = acc ++ List.map Some names ++ List.repeat None k
      /\ (List.length names + k = List.length ms)%nat
      /\ runs (parse_stream (PrefetchFileNameString pf)) (List.length names)
              (mkBytesIO d p) names (mkBytesIO d q)
      /\ s1 = mkBytesIO d q
      /\ (k <> O ->
          SectionCLength (file_info self)
          < Z.of_N q - SectionCOffset (file_info self)).
Proof.
  induction ms as [| m t IH]; intros acc p out s1.
  - cbn [for_each]. unfold ret. intros H. inversion H; subst.
    exists [], O, p. cbn. rewrite app_nil_r.
    repeat split; [constructor | congruence].
  - destruct (Z.of_N p - SectionCOffset (file_info self)
              <=? SectionCLength (file_info self)) eqn:E.
    + cbn [for_each].
      unfold bind at 1. unfold filename_turn at 1. unfold bind at 1. unfold tell.
      cbn [position]. rewrite E. unfold bind at 1.
      destruct (parse_stream (PrefetchFileNameString pf) (mkBytesIO d p))
        as [[name | e] s2] eqn:P; [| discriminate].
      assert (s2 = mkBytesIO d (position s2)) as Hs2.
      { pose proof (keeps_parse_stream (PrefetchFileNameString pf) (mkBytesIO d p))
          as K. rewrite P in K. cbn in K. destruct s2; cbn in *. now subst. }
      unfold ret at 1. rewrite Hs2. intros H.
      destruct (IH _ _ _ _ H) as (names & k & q & Hout & Hlen & R & Hs1 & Hk).
      exists (name :: names), k, q.
      repeat split; try assumption.
      * rewrite Hout. cbn [List.map app]. now rewrite <- app_assoc.
      * cbn [List.length]. lia.
      * cbn [List.length]. econstructor; [| exact R]. now rewrite <- Hs2.
    + apply Z.leb_gt in E. rewrite filename_loop_past_table by assumption.
      intros H. inversion H; subst.
      exists [], (List.length (m :: t)), p. cbn [List.map app List.length].
      repeat split; [constructor | trivial].
Qed.

(** X6: when the filename_strings decoder returns, its list has one item
    per file_metrics entry and is made of the strings decoded one after
    the other from SectionCOffset, followed only by absent items: after
    the first absent item no string is decoded any more. Absent items
    occur only once the running offset is past SectionCLength, and the
    stream is left as it was. *)
Theorem filename_strings_shape {datetime} (pf : pfstructs datetime)
    (lib : Collaborators datetime) (self : Prefetch datetime) (s : BytesIO)
    (out : list (option str)) :
  0 <= SectionCOffset (file_info self) ->
  fst (_parse_filename_strings pf lib self s) = Ok out ->
  exists names k s',
    out = _clean_value lib (List.map Some names ++ List.repeat None k)
    /\ (List.length names + k = List.length (file_metrics self))%nat
    /\ runs (parse_stream (PrefetchFileNameString pf)) (List.length names)
            (mkBytesIO (getvalue s) (Z.to_N (SectionCOffset (file_info self))))
            names s'
    /\ snd (_parse_filename_strings pf lib self s) = s
    /\ (k <> O ->
        SectionCLength (file_info self)
        < Z.of_N (position s') - SectionCOffset (file_info self)).
Proof.
  intros Hoff. unfold _parse_filename_strings.
  rewrite finally_restores by keeps. cbn [fst snd].
  erewrite bind_ok; [| now apply seek_to].
  unfold bind at 1.
  change (for_each (file_metrics self) _ [])
    with (for_each (file_metrics self) (filename_turn pf self) []).
  destruct (for_each _ _ _ _) as [[found | e] s1] eqn:L; [| discriminate].
  unfold ret. cbn [fst]. intros H. inversion H; subst out.
  destruct (filename_loop_shape pf self _ _ _ _ L)
    as (names & k & q & Hout & Hlen & R & _ & Hk).
  exists names, k, (mkBytesIO (getvalue s) q).
  rewrite Hout. cbn [app position]. repeat split; assumption.
Qed.

Lemma filename_strings_shape_witness :
  exists names k s',
    [Some (str_of_string "A"); Some (str_of_string "B"); None]
    = List.map Some names ++ List.repeat None k
    /\ (List.length names + k = 3)%nat
    /\ runs (parse_stream (PrefetchFileNameString Fixture.layout))
            (List.length names) (mkBytesIO Fixture.filename_data 0%N) names s'.
Proof.
  destruct (@filename_strings_shape _ Fixture.layout Fixture.lib
              (Fixture.parser "TEN" (Fixture.offsets 0 0 0 4 0 0)
                 [Fixture.a_metric; Fixture.a_metric; Fixture.a_metric] [])
              (mkBytesIO Fixture.filename_data 0%N)
              [Some (str_of_string "A"); Some (str_of_string "B"); None])
    as (names & k & s' & Hout & Hlen & R & _).
  - vm_compute. discriminate.
  - vm_compute. reflexivity.
  - exists names, k, s'. repeat split; assumption.
Defined.

(** *** Device paths that are too short *)

Lemma replace_nulls_filter (l : bytes) :
  replace Byte.eqb [x00] [] l = List.filter (fun b => negb (Byte.eqb x00 b)) l.
Proof.
  unfold replace. induction l as [| c t IH]; [reflexivity |].
  cbn [replace_from startswith List.filter].
  rewrite andb_true_r. destruct (Byte.eqb x00 c); cbn [negb].
  - cbn [List.length Nat.sub app]. exact IH.
  - f_equal. exact IH.
Qed.

Lemma padded_string_short (length : Z) (data : bytes) :
  Z.of_nat (List.length data) < length ->
  parse (PaddedString length) data = Raise StreamError.
Proof.
  intros H.
  unfold parse, PaddedString, construct_of, stream_read, bind, read, raise.
  destruct (length <? 0) eqn:E; [apply Z.ltb_lt in E; lia |].
  cbn [getvalue position N.to_nat skipn].
  rewrite firstn_all2 by lia.
  destruct (Z.of_nat (List.length data) =? length) eqn:E2;
    [apply Z.eqb_eq in E2; lia | reflexivity].
Qed.

(** X7: when the run read for a device path holds fewer non-zero bytes
    than VolumeDevicePathLength (the path offset lies at or past the end
    of the buffer, the run is cut short by it, or the text holds a null
    character), the turn of the volumes_info loop raises StreamError. *)
Theorem device_path_short_run_raises {datetime} (pf : pfstructs datetime)
    (lib : Collaborators datetime) (self : Prefetch datetime)
    (d : bytes) (p : N) (entry : VolumeInformation datetime) (p' : N)
    (created : datetime) :
  PrefetchVolumeInformation pf self d p = (Ok entry, p') ->
  parse_filetime lib (RawVolumeCreateTime entry) = Ok created ->
  0 <= SectionDOffset (file_info self) + VolumeDevicePathOffset entry ->
  Z.of_nat
    (List.length
       (List.filter (fun b => negb (Byte.eqb x00 b))
          (bytes_read d
             (Z.to_N (SectionDOffset (file_info self) + VolumeDevicePathOffset entry))
             (VolumeDevicePathLength entry * 2))))
  < VolumeDevicePathLength entry ->
  fst (volumes_info_entry pf lib self (mkBytesIO d p)) = Raise StreamError.
Proof.
  intros Hparse Htime Hseek Hshort.
  rewrite (volumes_info_entry_run pf lib self d p Hparse Htime Hseek).
  rewrite replace_nulls_filter, padded_string_short by assumption.
  reflexivity.
Qed.

Lemma device_path_short_run_raises_witness :
  fst (volumes_info_entry Fixture.layout Fixture.lib
         (Fixture.parser "TEN" (Fixture.offsets 0 0 0 0 0 2) [] [])
         (mkBytesIO
            (Fixture.volumes_data (Fixture.utf16le "C:") [x41; x00; x00; x00] 2 2)
            28%N))
  = Raise StreamError.
Proof.
  apply (@device_path_short_run_raises _ Fixture.layout Fixture.lib
           (Fixture.parser "TEN" (Fixture.offsets 0 0 0 0 0 2) [] [])
           (Fixture.volumes_data (Fixture.utf16le "C:") [x41; x00; x00; x00] 2 2)
           28%N (mkVolumeInformation 60 2 20 0 0 0 None None) 56%N
           (-11644473599999998)).
  - vm_compute. reflexivity.
  - vm_compute. reflexivity.
  - vm_compute. discriminate.
  - vm_compute. reflexivity.
Defined.

(** *** The incoming cursor does not matter *)

Lemma seek_first {A} (n : Z) (k : IO A) (d : bytes) (p p' : N) :
  fst ((seek n ;;; k) (mkBytesIO d p)) = fst ((seek n ;;; k) (mkBytesIO d p')).
Proof.
  unfold bind, seek. cbn [getvalue]. now destruct (n <? 0).
Qed.

Lemma bind_ret_fst {A B} (m : IO A) (f : A -> B) (s s' : BytesIO) :
  fst (m s) = fst (m s') ->
  fst ((a <- m ;; ret (f a)) s) = fst ((a <- m ;; ret (f a)) s').
Proof.
  unfold bind, ret. destruct (m s) as [r1 s1], (m s') as [r2 s2].
  cbn [fst]. intros ->. now destruct r2.
Qed.

Lemma file_references_loop {datetime} (pf : pfstructs datetime)
    (self : Prefetch datetime) (d : bytes) (p : N) :
  exists q,
    for_each (volumes_info self)
      (fun file_refs volumes_info_entry =>
         try_except
           (entry <- file_refs_entry pf self volumes_info_entry ;;
            ret (file_refs ++ [Some entry]))
           (fun _ => ret (file_refs ++ [None])))
      [] (mkBytesIO d p)
    = (Ok (List.map (file_references_at pf d (SectionDOffset (file_info self)))
                    (volumes_info self)),
       mkBytesIO d q).
Proof.
  rewrite (for_each_ext (volumes_info self) _
             (fun acc v => y <- attempt (file_refs_entry pf self v) ;;
                           ret (acc ++ [y])))
    by (intros; apply attempt_append).
  rewrite for_each_collect. unfold bind at 1.
  destruct (collect_file_refs pf self (volumes_info self) (mkBytesIO d p))
    as [q Hq].
  rewrite Hq. now exists q.
Qed.

Lemma directory_tables_loop {datetime} (self : Prefetch datetime) (d : bytes)
    (vs : list (VolumeInformation datetime)) (acc : list (list (option str)))
    (p p' : N) :
  fst (for_each vs
         (fun directory_strings volumes_info_entry =>
            seek (SectionDOffset (file_info self)
                  + SectionFOffset volumes_info_entry) ;;;
            entry <- directory_strings_entry
                       (SectionFStringsCount volumes_info_entry) ;;
            ret (directory_strings ++ [entry]))
         acc (mkBytesIO d p))
  = fst (for_each vs
           (fun directory_strings volumes_info_entry =>
              seek (SectionDOffset (file_info self)
                    + SectionFOffset volumes_info_entry) ;;;
              entry <- directory_strings_entry
                         (SectionFStringsCount volumes_info_entry) ;;
              ret (directory_strings ++ [entry]))
           acc (mkBytesIO d p')).
Proof.
  destruct vs as [| v t]; [reflexivity |].
  cbn [for_each]. unfold bind at 1 3. unfold bind at 1 3. unfold seek.
  cbn [getvalue]. now destruct (_ <? 0).
Qed.

(** X8: the six decoders that seek read at absolute offsets: the value
    each returns (or the error it raises) does not depend on where the
    cursor of the stream is when it is called. *)
Theorem decoded_value_ignores_cursor {datetime} (pf : pfstructs datetime)
    (lib : Collaborators datetime) (self : Prefetch datetime)
    (d : bytes) (p p' : N) :
  fst (_parse_directory_strings lib self (mkBytesIO d p))
  = fst (_parse_directory_strings lib self (mkBytesIO d p'))
  /\ fst (_parse_file_references pf lib self (mkBytesIO d p))
     = fst (_parse_file_references pf lib self (mkBytesIO d p'))
  /\ fst (_parse_volumes_info pf lib self (mkBytesIO d p))
     = fst (_parse_volumes_info pf lib self (mkBytesIO d p'))
  /\ fst (_parse_filename_strings pf lib self (mkBytesIO d p))
     = fst (_parse_filename_strings pf lib self (mkBytesIO d p'))
  /\ fst (_parse_trace_chains pf lib self (mkBytesIO d p))
     = fst (_parse_trace_chains pf lib self (mkBytesIO d p'))
  /\ fst (_parse_file_metrics pf lib self (mkBytesIO d p))
     = fst (_parse_file_metrics pf lib self (mkBytesIO d p')).
Proof.
  repeat split.
  - unfold _parse_directory_strings.
    rewrite !finally_restores
      by (keeps; unfold directory_strings_entry, directory_string; keeps).
    cbn [fst]. apply bind_ret_fst. apply directory_tables_loop.
  - unfold _parse_file_references.
    rewrite !finally_restores by keeps. cbn [fst]. apply bind_ret_fst.
    destruct (file_references_loop pf self d p) as [q ->].
    now destruct (file_references_loop pf self d p') as [q' ->].
  - unfold _parse_volumes_info.
    rewrite !finally_restores
      by (keeps; apply keeps_volumes_info_entry).
    apply seek_first.
  - unfold _parse_filename_strings.
    rewrite !finally_restores by keeps. apply seek_first.
  - unfold _parse_trace_chains.
    rewrite !finally_restores by keeps. apply seek_first.
  - unfold _parse_file_metrics.
    rewrite !finally_restores
      by (keeps; apply keeps_file_metrics_entry).
    apply seek_first.
Qed.

(** *** The hash is not zero-padded *)

Lemma upper_char_not_zero (c : N) : c <> 48%N -> upper_char c <> 48%N.
Proof.
  intros H. unfold upper_char.
  destruct ((97 <=? c) && (c <=? 122))%N eqn:E; [| exact H].
  apply andb_true_iff in E as [E1 E2].
  apply N.leb_le in E1. lia.
Qed.

Lemma hex_digit_not_zero (d : N) : (0 < d)%N -> hex_digit d <> 48%N.
Proof.
  intros H. unfold hex_digit. destruct (d <? 10)%N; lia.
Qed.

Lemma hex_digits_leading (fuel : nat) :
  forall n,
    fuel <> O -> (n < 16 ^ N.of_nat fuel)%N ->
    (n = 0%N -> hex_digits fuel n = [48%N])
    /\ ((0 < n)%N -> exists c rest, hex_digits fuel n = c :: rest /\ c <> 48%N).
Proof.
  induction fuel as [| f IH]; intros n Hfuel Hn; [congruence |].
  cbn [hex_digits]. destruct (n <? 16)%N eqn:E.
  - split.
    + intros ->. reflexivity.
    + intros Hpos. exists (hex_digit n), []. split; [reflexivity |].
      now apply hex_digit_not_zero.
  - apply N.ltb_ge in E. split; [lia |]. intros _.
    assert (f <> O) as Hf.
    { intros ->. change (16 ^ N.of_nat 1)%N with 16%N in Hn. lia. }
    assert (n / 16 < 16 ^ N.of_nat f)%N as Hq.
    { apply N.Div0.div_lt_upper_bound.
      rewrite Nat2N.inj_succ, N.pow_succ_r' in Hn. exact Hn. }
    assert (0 < n / 16)%N as Hpos.
    { apply N.div_str_pos. lia. }
    destruct (proj2 (IH _ Hf Hq) Hpos) as (c & rest & Hd & Hc).
    rewrite Hd. exists c, (rest ++ [hex_digit (n mod 16)]). now split.
Qed.

(** X9: PrefetchHash is the shortest numeral of the raw hash: it is "0"
    for a raw hash of zero and starts with a non-zero digit otherwise, so
    it is not padded to a fixed width. *)
Theorem prefetch_hash_not_padded {datetime} (pf : pfstructs datetime)
    (lib : Collaborators datetime) (s : BytesIO) (parsed : Header) (p' : N)
    (signature : str) :
  PrefetchHeader pf (getvalue s) (position s) = (Ok parsed, p') ->
  decode_utf8 (RawSignature parsed) = Ok signature ->
  0 <= RawPrefetchHash parsed ->
  exists decoded hash,
    fst (_parse_header pf lib s) = Ok (_clean_value lib decoded)
    /\ PrefetchHash decoded = Some hash
    /\ (RawPrefetchHash parsed = 0 -> hash = str_of_string "0")
    /\ (0 < RawPrefetchHash parsed ->
        exists c rest, hash = c :: rest /\ c <> 48%N).
Proof.
  intros Hparse Hsig Hhash.
  destruct (split_first (RawExecutableName parsed))
    as (name & ws & rest & Hsplit & _).
  set (hash := upper (replace N.eqb (str_of_string "0x") []
                        (hex (RawPrefetchHash parsed)))).
  exists (set_header_fields parsed signature name hash), hash.
  split.
  { unfold _parse_header.
    erewrite bind_ok; [| unfold parse_stream; rewrite Hparse; reflexivity].
    erewrite bind_ok; [| unfold lift; rewrite Hsig; reflexivity].
    erewrite bind_ok;
      [| unfold lift, item; rewrite Hsplit; reflexivity].
    reflexivity. }
  split; [reflexivity |].
  subst hash. rewrite hash_text by assumption.
  destruct (hex_digits_leading (@Nat.neq_succ_0 _)
              (hex_fuel (Z.to_N (RawPrefetchHash parsed)))) as [Hzero Hpos].
  split.
  - intros H. rewrite Hzero by lia. reflexivity.
  - intros H. destruct Hpos as (c & tl & Hd & Hc); [lia |].
    rewrite Hd. exists (upper_char c), (upper tl). split; [reflexivity |].
    now apply upper_char_not_zero.
Qed.

Lemma prefetch_hash_not_padded_witness :
  exists decoded hash,
    fst (_parse_header Fixture.layout Fixture.lib
           (mkBytesIO (Fixture.header_bytes 30 171 "CALC.EXE") 0%N))
    = Ok decoded
    /\ PrefetchHash decoded = Some hash
    /\ exists c rest, hash = c :: rest /\ c <> 48%N.
Proof.
  destruct (@prefetch_hash_not_padded _ Fixture.layout Fixture.lib
              (mkBytesIO (Fixture.header_bytes 30 171 "CALC.EXE") 0%N)
              (mkHeader (TagStr "TEN") [x53; x43; x43; x41]
                 (str_of_string "CALC.EXE" ++ List.repeat 0%N 22) 171
                 None None None)
              84%N (str_of_string "SCCA"))
    as (decoded & hash & Hrun & Hhash & _ & Hpos).
  - vm_compute. reflexivity.
  - vm_compute. reflexivity.
  - vm_compute. discriminate.
  - exists decoded, hash. repeat split; try assumption.
    apply Hpos. reflexivity.
Defined.

(** *** Directory strings: stored tables decode to their texts *)

Lemma byte_of_value (n : Z) : Z.of_N (Byte.to_N (Fixture.byte_of n)) = n mod 256.
Proof.
  unfold Fixture.byte_of.
  pose proof (Z.mod_pos_bound n 256 eq_refl) as Hb.
  destruct (Byte.of_N (Z.to_N (n mod 256))) as [b |] eqn:E.
  - apply Byte.to_of_N in E. rewrite E. lia.
  - apply Byte.of_N_None_iff in E. lia.
Qed.

Lemma int_le_le (w : nat) :
  forall n, int_le (Fixture.le w n) = n mod 256 ^ Z.of_nat w.
Proof.
  induction w as [| w IH]; intros n; cbn [Fixture.le int_le].
  - now rewrite Z.mod_1_r.
  - rewrite byte_of_value, IH, Nat2Z.inj_succ, Z.pow_succ_r by lia.
    rewrite Z.rem_mul_r by lia. reflexivity.
Qed.

Lemma le_length (w : nat) : forall n, List.length (Fixture.le w n) = w.
Proof.
  induction w as [| w IH]; intros n; cbn [Fixture.le List.length];
    [reflexivity | now rewrite IH].
Qed.

Lemma utf16le_of_length (text : str) :
  List.length (utf16le_of text) = (2 * List.length text)%nat.
Proof.
  induction text as [| c t IH]; [reflexivity |].
  unfold utf16le_of in *. cbn [flat_map app List.length]. rewrite IH. lia.
Qed.

Lemma slice_middle (pre x post : bytes) :
  slice (pre ++ x ++ post) (N.of_nat (List.length pre))
        (Z.of_nat (List.length x)) = x.
Proof.
  unfold slice. rewrite Nat2N.id, Nat2Z.id.
  rewrite skipn_app, skipn_all, Nat.sub_diag. cbn [skipn app].
  rewrite firstn_app, firstn_all, Nat.sub_diag. cbn [firstn].
  apply app_nil_r.
Qed.

Lemma utf16_units_terminated (text : str) :
  ascii_text text ->
  utf16_units false (utf16le_of text ++ [x00; x00]) = Ok (text ++ [0%N]).
Proof.
  induction 1 as [| c t Hc Ht IH]; [reflexivity |].
  cbn [utf16le_of flat_map app utf16_units].
  unfold code_unit. rewrite byte_of_to_N by lia.
  change (Byte.to_N x00) with 0%N. rewrite N.mul_0_r, N.add_0_r.
  unfold is_high_surrogate, is_low_surrogate.
  destruct (55296 <=? c)%N eqn:E1; [apply N.leb_le in E1; lia |].
  destruct (56320 <=? c)%N eqn:E2; [apply N.leb_le in E2; lia |].
  cbn [andb]. fold (utf16le_of t). now rewrite IH.
Qed.

Lemma decode_utf16_terminated (text : str) :
  ascii_text text ->
  decode_utf16 (utf16le_of text ++ [x00; x00]) = Ok (text ++ [0%N]).
Proof.
  intros H. pose proof (utf16_units_terminated H) as U.
  destruct H as [| c t Hc Ht]; [reflexivity |].
  cbn [utf16le_of flat_map app] in *. unfold decode_utf16.
  unfold code_unit at 1 2. rewrite byte_of_to_N by lia.
  change (Byte.to_N x00) with 0%N. rewrite N.mul_0_r, N.add_0_r.
  destruct (c =? 65279)%N eqn:E1; [apply N.eqb_eq in E1; lia |].
  destruct (c =? 65534)%N eqn:E2; [apply N.eqb_eq in E2; lia |].
  exact U.
Qed.

Lemma lstrip_ascii (text : str) :
  ascii_text text -> lstrip N.eqb 0%N text = text.
Proof.
  intros H. destruct H as [| c t Hc Ht]; [reflexivity |].
  cbn [lstrip]. destruct (c =? 0)%N eqn:E; [apply N.eqb_eq in E; lia |].
  reflexivity.
Qed.

Lemma strip_terminated (text : str) :
  ascii_text text -> strip N.eqb 0%N (text ++ [0%N]) = text.
Proof.
  intros H. unfold strip, rstrip.
  assert (ascii_text (rev text)) as Hrev by (apply Forall_rev; exact H).
  destruct H as [| c t Hc Ht].
  - reflexivity.
  - assert (lstrip N.eqb 0%N ((c :: t) ++ [0%N]) = (c :: t) ++ [0%N]) as ->.
    { cbn [app lstrip].
      destruct (c =? 0)%N eqn:E; [apply N.eqb_eq in E; lia | reflexivity]. }
    rewrite rev_app_distr. cbn [rev app lstrip].
    change (0 =? 0)%N with true. cbv iota.
    change (rev t ++ [c]) with (rev (c :: t)).
    rewrite lstrip_ascii by assumption. apply rev_involutive.
Qed.

Lemma directory_string_at_encoded (pre post : bytes) (text : str) :
  ascii_text text -> Z.of_nat (List.length text) < 65536 ->
  directory_string_at (pre ++ encode_directory_string text ++ post)
                      (N.of_nat (List.length pre))
  = (Some text,
     N.of_nat (List.length pre + List.length (encode_directory_string text))).
Proof.
  intros Hascii Hlen. unfold directory_string_at, encode_directory_string.
  set (count := Fixture.le 2 (Z.of_nat (List.length text))).
  set (run := utf16le_of text ++ [x00; x00]).
  assert (List.length count = 2%nat) as Hcount by apply le_length.
  assert (List.length run = (2 * List.length text + 2)%nat) as Hrun.
  { subst run. rewrite length_app, utf16le_of_length. cbn [List.length]. lia. }
  assert (slice (pre ++ (count ++ run) ++ post) (N.of_nat (List.length pre)) 2
          = count) as Hfield.
  { rewrite <- (app_assoc count run post).
    change 2 with (Z.of_nat 2). rewrite <- Hcount. apply slice_middle. }
  cbv zeta. rewrite Hfield, Hcount. change (Z.of_nat 2 =? 2) with true. cbv iota.
  assert (int_le count = Z.of_nat (List.length text)) as Hint.
  { subst count. rewrite int_le_le. change (256 ^ Z.of_nat 2) with 65536.
    apply Z.mod_small. lia. }
  rewrite Hint.
  assert (slice (pre ++ (count ++ run) ++ post)
                (N.of_nat (List.length pre) + N.of_nat 2)
                (Z.of_nat (List.length text) * 2 + 2) = run) as Hslice.
  { replace (pre ++ (count ++ run) ++ post) with ((pre ++ count) ++ run ++ post)
      by (now rewrite <- !app_assoc).
    replace (N.of_nat (List.length pre) + N.of_nat 2)%N
      with (N.of_nat (List.length (pre ++ count)))
      by (rewrite length_app, Hcount; lia).
    replace (Z.of_nat (List.length text) * 2 + 2)
      with (Z.of_nat (List.length run)) by lia.
    apply slice_middle. }
  rewrite Hslice. subst run.
  rewrite decode_utf16_terminated, strip_terminated by assumption.
  f_equal. rewrite !length_app, Hcount in *. lia.
Qed.

Lemma directory_strings_from_encoded (texts : list str) :
  forall pre post,
    Forall ascii_text texts ->
    Forall (fun text => Z.of_nat (List.length text) < 65536) texts ->
    directory_strings_from
      (pre ++ List.concat (List.map encode_directory_string texts) ++ post)
      (N.of_nat (List.length pre)) (List.length texts)
    = List.map Some texts.
Proof.
  induction texts as [| text rest IH]; intros pre post Hascii Hlen;
    [reflexivity |].
  inversion Hascii as [| ? ? Ha Hrest]; subst.
  inversion Hlen as [| ? ? Hl Hlrest]; subst.
  cbn [List.map List.concat List.length directory_strings_from].
  rewrite <- (app_assoc (encode_directory_string text)).
  rewrite directory_string_at_encoded by assumption. cbn [fst snd].
  f_equal.
  rewrite <- length_app.
  rewrite (app_assoc pre (encode_directory_string text)).
  now apply IH.
Qed.

Lemma parse_directory_strings_run {datetime} (lib : Collaborators datetime)
    (self : Prefetch datetime) (s : BytesIO) :
  (forall v, In v (volumes_info self) ->
             0 <= SectionDOffset (file_info self) + SectionFOffset v) ->
  _parse_directory_strings lib self s
  = (Ok (_clean_value lib
           (List.map
              (fun v => directory_strings_from (getvalue s)
                          (Z.to_N (SectionDOffset (file_info self) + SectionFOffset v))
                          (Z.to_nat (SectionFStringsCount v)))
              (volumes_info self))),
     s).
Proof.
  intros Hpos. unfold _parse_directory_strings.
  rewrite finally_restores
    by (keeps; unfold directory_strings_entry, directory_string; keeps).
  f_equal.
  unfold bind at 1.
  rewrite (for_each_ext (volumes_info self) _
             (fun acc v =>
                y <- (seek (SectionDOffset (file_info self) + SectionFOffset v) ;;;
                      directory_strings_entry (SectionFStringsCount v)) ;;
                ret (acc ++ [y]))).
  2:{ intros acc v s0. unfold bind.
      destruct (seek _ s0) as [[z | e] s1]; [| reflexivity].
      now destruct (directory_strings_entry _ s1) as [[y | e] s2]. }
  rewrite for_each_collect. unfold bind at 1.
  destruct s as [d p]. cbn [getvalue].
  destruct (collect_directory_tables self (volumes_info self) d Hpos p) as [q Hq].
  now rewrite Hq.
Qed.

(** X10: a directory-string table that is stored well decodes to its
    texts. If the buffer holds, at SectionDOffset + SectionFOffset of the
    volume of index i, the strings of [texts] one after the other, each as
    a 2-byte count of code units, the non-null ASCII text in UTF-16LE and a
    null code unit, and the volume declares that many strings, then item i
    of the result is exactly [texts], none absent, whatever the tables of
    the other volumes hold. *)
Theorem directory_strings_round_trip {datetime} (lib : Collaborators datetime)
    (self : Prefetch datetime) (s : BytesIO) (i : nat)
    (v : VolumeInformation datetime) (texts : list str) (pre post : bytes) :
  (forall v, In v (volumes_info self) ->
             0 <= SectionDOffset (file_info self) + SectionFOffset v) ->
  nth_error (volumes_info self) i = Some v ->
  getvalue s = pre ++ List.concat (List.map encode_directory_string texts) ++ post ->
  SectionDOffset (file_info self) + SectionFOffset v = Z.of_nat (List.length pre) ->
  SectionFStringsCount v = Z.of_nat (List.length texts) ->
  Forall ascii_text texts ->
  Forall (fun text => Z.of_nat (List.length text) < 65536) texts ->
  exists tables,
    _parse_directory_strings lib self s = (Ok (_clean_value lib tables), s)
    /\ nth_error tables i = Some (List.map Some texts).
Proof.
  intros Hpos Hv Hdata Hoff Hcount Hascii Hlen.
  eexists. split; [apply (parse_directory_strings_run lib self s Hpos) |].
  rewrite nth_error_map, Hv. cbn [option_map]. f_equal.
  rewrite Hdata, Hoff, Hcount, Nat2Z.id.
  replace (Z.to_N (Z.of_nat (List.length pre))) with (N.of_nat (List.length pre))
    by lia.
  now apply directory_strings_from_encoded.
Qed.

Lemma directory_strings_round_trip_witness :
  exists tables,
    _parse_directory_strings Fixture.lib
      (Fixture.parser "TEN" (Fixture.offsets 0 0 0 0 0 2) []
         [Fixture.volume 0 0 0 0 3; Fixture.volume 0 0 0 20 1])
      (mkBytesIO Fixture.directory_data 7%N)
    = (Ok tables, mkBytesIO Fixture.directory_data 7%N)
    /\ nth_error tables 1 = Some [Some (str_of_string "d")].
Proof.
  apply (@directory_strings_round_trip _ Fixture.lib
           (Fixture.parser "TEN" (Fixture.offsets 0 0 0 0 0 2) []
              [Fixture.volume 0 0 0 0 3; Fixture.volume 0 0 0 20 1])
           (mkBytesIO Fixture.directory_data 7%N) 1%nat
           (Fixture.volume 0 0 0 20 1) [str_of_string "d"]
           (firstn 20 Fixture.directory_data) []).
  - intros v [<- | [<- | []]]; vm_compute; discriminate.
  - reflexivity.
  - vm_compute. reflexivity.
  - vm_compute. reflexivity.
  - vm_compute. reflexivity.
  - repeat constructor.
  - repeat constructor.
Defined.

(** *** Directory strings at the end of the buffer *)

Lemma directory_strings_from_exhausted (d : bytes) (p : N) (n : nat) :
  (N.of_nat (List.length d) <= p)%N ->
  directory_strings_from d p n = List.repeat None n.
Proof.
  intros Hend.
  assert (directory_string_at d p = (None, p)) as Hat.
  { unfold directory_string_at, slice.
    rewrite skipn_all2 by lia. rewrite firstn_nil. cbn [List.length].
    change (Z.of_nat 0 =? 2) with false. cbv iota zeta.
    f_equal. cbn. lia. }
  induction n as [| k IH]; [reflexivity |].
  cbn [directory_strings_from List.repeat]. rewrite Hat. cbn [fst snd].
  now rewrite IH.
Qed.

(** X11: a directory-string table that starts at or past the end of the
    buffer is not an error: each of the declared strings is absent. *)
Theorem directory_strings_past_end (count : Z) (d : bytes) (p : N) :
  (N.of_nat (List.length d) <= p)%N ->
  fst (directory_strings_entry count (mkBytesIO d p))
  = Ok (List.repeat None (Z.to_nat count)).
Proof.
  intros Hend.
  destruct (directory_strings_entry_run count d p) as [q Hq].
  rewrite Hq. cbn [fst]. now rewrite directory_strings_from_exhausted.
Qed.

Lemma directory_strings_past_end_witness :
  fst (directory_strings_entry 3 (mkBytesIO Fixture.directory_data 26%N))
  = Ok [None; None; None].
Proof.
  apply (@directory_strings_past_end 3 Fixture.directory_data 26%N).
  vm_compute. discriminate.
Defined.

Lemma strip_ascii (text : str) :
  ascii_text text -> strip N.eqb 0%N text = text.
Proof.
  intros H. unfold strip, rstrip.
  rewrite (lstrip_ascii H).
  rewrite lstrip_ascii by (apply Forall_rev; exact H).
  apply rev_involutive.
Qed.

Lemma slice_tail (pre x : bytes) (n : Z) :
  Z.of_nat (List.length x) <= n ->
  slice (pre ++ x) (N.of_nat (List.length pre)) n = x.
Proof.
  intros H. unfold slice. rewrite Nat2N.id.
  rewrite skipn_app, skipn_all, Nat.sub_diag. cbn [skipn app].
  apply firstn_all2. lia.
Qed.

(** X12: a length field that promises more than the buffer holds does not
    make a directory string absent: [read] returns the bytes that remain,
    and when these are non-null ASCII text in UTF-16LE the string is that
    text (the empty string when the length field is the last thing in the
    buffer). *)
Theorem directory_string_truncated (pre : bytes) (count : Z) (text : str) :
  0 <= count < 65536 ->
  ascii_text text ->
  Z.of_nat (List.length text) <= count ->
  fst (directory_strings_entry 1
         (mkBytesIO (pre ++ Fixture.le 2 count ++ utf16le_of text)
                    (N.of_nat (List.length pre))))
  = Ok [Some text].
Proof.
  intros Hcount Hascii Hlen.
  destruct (directory_strings_entry_run 1
              (pre ++ Fixture.le 2 count ++ utf16le_of text)
              (N.of_nat (List.length pre))) as [q Hq].
  rewrite Hq. cbn [fst]. change (Z.to_nat 1) with 1%nat.
  cbn [directory_strings_from]. do 2 f_equal.
  unfold directory_string_at.
  assert (slice (pre ++ Fixture.le 2 count ++ utf16le_of text)
                (N.of_nat (List.length pre)) 2 = Fixture.le 2 count) as Hfield.
  { change 2 with (Z.of_nat 2) at 1.
    rewrite <- (le_length 2 count) at 2. apply slice_middle. }
  cbv zeta. rewrite Hfield, le_length. change (Z.of_nat 2 =? 2) with true.
  cbv iota. cbn [fst].
  rewrite int_le_le. change (256 ^ Z.of_nat 2) with 65536.
  rewrite Z.mod_small by assumption.
  assert (slice (pre ++ Fixture.le 2 count ++ utf16le_of text)
                (N.of_nat (List.length pre) + N.of_nat 2) (count * 2 + 2)
          = utf16le_of text) as Hrun.
  { rewrite app_assoc.
    replace (N.of_nat (List.length pre) + N.of_nat 2)%N
      with (N.of_nat (List.length (pre ++ Fixture.le 2 count)))
      by (rewrite length_app, le_length; lia).
    apply slice_tail. rewrite utf16le_of_length. lia. }
  rewrite Hrun, decode_utf16_ascii by assumption.
  now rewrite strip_ascii.
Qed.

Lemma directory_string_truncated_witness :
  fst (directory_strings_entry 1
         (mkBytesIO ([x07] ++ Fixture.le 2 300 ++ utf16le_of (str_of_string "ab"))
                    1%N))
  = Ok [Some (str_of_string "ab")]
  /\ fst (directory_strings_entry 1
            (mkBytesIO ([x07] ++ Fixture.le 2 5 ++ utf16le_of []) 1%N))
     = Ok [Some []].
Proof.
  split.
  - apply (@directory_string_truncated [x07] 300 (str_of_string "ab")).
    + lia.
    + repeat constructor.
    + vm_compute. discriminate.
  - apply (@directory_string_truncated [x07] 5 []).
    + lia.
    + constructor.
    + vm_compute. discriminate.
Defined.
